(** * Voice detection core: audio normalisation, feature extraction, scoring

    A shallow embedding of [audio_processor.py] and [voice_detector.py].

    - A Python float is an IEEE binary64 value, that is, one of Rocq's
      primitive floats: the scorer, the classification, [round] and the
      format specs run inside Rocq bit for bit.
    - A numpy array is a list. The program keeps the signal in float32 and
      its statistics in float64; the embedding states the array code once,
      over an interface of scalar operations ([Np.Arith]), and gives it two
      instances: the binary64 floats, to run the code on inputs where every
      operation is exact, and the extended reals [option R], where [None]
      stands for a value that is not a finite number, for what holds of the
      values before rounding.
    - What comes from pydub and scipy (the decoder, the Fourier transform,
      the peak search, the entropy, the moments) is a parameter.
    - An exception is a value of [Py.exn]; a function that can raise
      returns [Py.result A]. *)

From Stdlib Require Import Floats ZArith QArith List String Ascii Bool Lia.
From Stdlib Require Import DecimalString.
From Stdlib Require Reals Qreals Lra.
Import ListNotations.

Set Warnings "-inexact-float,-abstract-large-number".

#[local] Open Scope string_scope.
#[local] Open Scope list_scope.

(** ** Python values shared by both modules *)

Module Py.

(** An exception: the name of its class and [str(e)]. *)
Record exn := Exn { exn_type : string; exn_msg : string }.

Definition result (A : Type) : Type := (exn + A)%type.

Definition ret {A} (a : A) : result A := inr a.
Definition raise {A} (e : exn) : result A := inl e.

Definition bind {A B} (m : result A) (k : A -> result B) : result B :=
  match m with
  | inl e => inl e
  | inr a => k a
  end.

(** [np.max] and the like give [None] where Python raises [exc]. *)
Definition of_option {A} (o : option A) (exc : exn) : result A :=
  match o with
  | Some a => inr a
  | None => inl exc
  end.

(** The call returns a value. *)
Definition succeeds {X} (m : result X) : Prop := exists v, m = inr v.

(** [try: body except Exception as e: handler e]. *)
Definition try_except {A} (body : result A) (handler : exn -> result A) : result A :=
  match body with
  | inl e => handler e
  | inr a => inr a
  end.

(** [d.get(key, default)] on a dict kept as an association list. *)
Fixpoint dict_get {V} (d : list (string * V)) (key : string) (default : V) : V :=
  match d with
  | [] => default
  | (k, v) :: rest => if String.eqb k key then v else dict_get rest key default
  end.

(** [a > b] on floats. *)
Definition gtb (a b : float) : bool := PrimFloat.ltb b a.

(** The built-in [max(a, b)]: the first argument unless the second is larger. *)
Definition max (a b : float) : float := if gtb b a then b else a.

(** The built-in [min(a, b)]. *)
Definition min (a b : float) : float := if PrimFloat.ltb b a then b else a.

(** *** Decimal rounding of a binary64 value

    [round(x, k)] and the format specs [.kf] and [.k%] all round the exact
    value of the float to [k] decimal places, ties to even. *)

(** Nearest integer to [num / den] ([den > 0]), ties to even. *)
Definition div_half_even (num den : Z) : Z :=
  let q := (num / den)%Z in
  let r := (num mod den)%Z in
  match (2 * r ?= den)%Z with
  | Lt => q
  | Gt => (q + 1)%Z
  | Eq => if Z.even q then q else (q + 1)%Z
  end.

(** [|m * 2^e| * 10^k] rounded to an integer. *)
Definition scaled_magnitude (k : nat) (m : positive) (e : Z) : Z :=
  let p := (Z.pos m * 10 ^ Z.of_nat k)%Z in
  match e with
  | Zneg s => div_half_even p (2 ^ Z.pos s)
  | _ => (p * 2 ^ e)%Z
  end.

(** The binary64 value nearest to [n / 10^k], with the sign [s]. *)
Definition decimal_to_float (s : bool) (n : Z) (k : nat) : float :=
  match n with
  | Zpos p =>
      SF2Prim (SFdiv prec emax (S754_finite s p 0)
                                (S754_finite false (Pos.pow 10 (Pos.of_nat k)) 0))
  | _ => if s then (-0)%float else 0%float
  end.

(** [round(x, k)] for [k >= 1]: infinities and NaN round to themselves. *)
Definition round (x : float) (k : nat) : float :=
  match Prim2SF x with
  | S754_finite s m e => decimal_to_float s (scaled_magnitude k m e) k
  | _ => x
  end.

Definition digits_of_Z (n : Z) : string :=
  NilZero.string_of_uint (N.to_uint (Z.to_N n)).

Fixpoint zeros (n : nat) : string :=
  match n with
  | O => ""
  | S n' => String "0" (zeros n')
  end.

(** [format(x, ".kf")] for [k >= 1]. *)
Definition format_f (k : nat) (x : float) : string :=
  match Prim2SF x with
  | S754_finite s m e =>
      let n := scaled_magnitude k m e in
      let unit := (10 ^ Z.of_nat k)%Z in
      let frac := digits_of_Z (n mod unit) in
      (if s then "-" else "") ++ digits_of_Z (n / unit) ++ "."
        ++ zeros (k - String.length frac) ++ frac
  | S754_zero s => (if s then "-" else "") ++ "0." ++ zeros k
  | S754_infinity s => if s then "-inf" else "inf"
  | S754_nan => "nan"
  end.

(** [format(x, ".k%")]: the value times 100, in fixed notation, then a percent sign. *)
Definition format_pct (k : nat) (x : float) : string :=
  format_f k (x * 100)%float ++ "%".

(** [', '.join(l)]. *)
Fixpoint join (sep : string) (l : list string) : string :=
  match l with
  | [] => ""
  | [s] => s
  | s :: rest => s ++ sep ++ join sep rest
  end.

End Py.

Notation "x <- m ;; k" := (Py.bind m (fun x => k))
  (at level 61, m at next level, right associativity).

(** ** numpy arrays as lists over an arithmetic interface *)

Module Np.

(** The scalar operations of an array element type: [of_Z] converts an
    integer, [of_Q] is the value of a decimal literal; the comparisons are
    [<], [<=] and [==]. *)
Class Arith (F : Type) := {
  of_Z : Z -> F;
  of_Q : Q -> F;
  add : F -> F -> F;
  sub : F -> F -> F;
  mul : F -> F -> F;
  div : F -> F -> F;
  abs : F -> F;
  sqrt : F -> F;
  ltb : F -> F -> bool;
  leb : F -> F -> bool;
  eqb : F -> F -> bool
}.

(** What the code takes from scipy and from numpy's transcendental
    functions, whose implementations are not part of the repository:
    [fft_abs x] is [np.abs(scipy.fft.fft(x))], [find_peaks x h] is
    [scipy.signal.find_peaks(x, height=h)[0]], [entropy], [kurtosis] and
    [skew] are those of [scipy.stats]. *)
Record SciLib (F : Type) := {
  fft_abs : list F -> list F;
  exp : F -> F;
  log : F -> F;
  log10 : F -> F;
  find_peaks : list F -> F -> list nat;
  entropy : list F -> F;
  kurtosis : list F -> F;
  skew : list F -> F
}.

Arguments fft_abs {F}.
Arguments exp {F}.
Arguments log {F}.
Arguments log10 {F}.
Arguments find_peaks {F}.
Arguments entropy {F}.
Arguments kurtosis {F}.
Arguments skew {F}.
Arguments of_Q {F _} _%_Q.
Arguments of_Z {F _} _%_Z.

Section Arrays.

Context {F : Type} {A : Arith F}.

Definition zero : F := of_Z 0.
Definition one : F := of_Z 1.

(** [x > y]. *)
Definition gtb (x y : F) : bool := ltb y x.

(** [x >= y]. *)
Definition geb (x y : F) : bool := leb y x.

(** The built-in [min(x, y)] of Python. *)
Definition py_min (x y : F) : F := if ltb y x then y else x.

Definition sum (a : list F) : F := fold_left add a zero.

Definition len {X} (a : list X) : F := of_Z (Z.of_nat (List.length a)).

Definition mean (a : list F) : F := div (sum a) (len a).

Definition var (a : list F) : F :=
  let arrmean := mean a in
  mean (map (fun x => mul (sub x arrmean) (sub x arrmean)) a).

Definition std (a : list F) : F := sqrt (var a).

Definition square (a : list F) : list F := map (fun x => mul x x) a.

Definition sign (x : F) : F :=
  if ltb x zero then of_Z (-1)
  else if ltb zero x then one
  else if eqb x zero then zero
  else x.

Fixpoint diff (a : list F) : list F :=
  match a with
  | x :: ((y :: _) as rest) => sub y x :: diff rest
  | _ => []
  end.

Fixpoint diffZ (a : list Z) : list Z :=
  match a with
  | x :: ((y :: _) as rest) => (y - x)%Z :: diffZ rest
  | _ => []
  end.

Fixpoint cumsum_from (acc : F) (a : list F) : list F :=
  match a with
  | [] => []
  | x :: rest => let s := add acc x in s :: cumsum_from s rest
  end.

Definition cumsum (a : list F) : list F := cumsum_from zero a.

(** [np.max]: [None] on an empty array (numpy raises [ValueError]); a NaN
    element makes the result NaN. *)
Definition amax (a : list F) : option F :=
  match a with
  | [] => None
  | x :: rest =>
      Some (fold_left
              (fun m y => if eqb m m then (if eqb y y then (if ltb m y then y else m) else y) else m)
              rest x)
  end.

(** An elementwise operation on two arrays of the same length. *)
Definition zip_with {X Y Z} (f : X -> Y -> Z) (a : list X) (b : list Y) : list Z :=
  map (fun p => f (fst p) (snd p)) (combine a b).

(** [np.where(cond)[0]]. *)
Definition where_ (cond : F -> bool) (a : list F) : list nat :=
  map fst (filter (fun p => cond (snd p)) (combine (seq 0 (List.length a)) a)).

(** [a[i:j]]. *)
Definition slice {X} (a : list X) (i j : nat) : list X := firstn (j - i) (skipn i a).

(** [range(0, stop, step)] for a positive [step]. *)
Definition range (stop : Z) (step : nat) : list nat :=
  map (fun j => j * step)%nat (seq 0 (Z.to_nat ((stop + Z.of_nat step - 1) / Z.of_nat step))).

(** [np.correlate(a, v, mode='full')]: entry [k] is the sum over [n] of
    [a[n + k - (len(v) - 1)] * v[n]], over the [n] for which both exist. *)
Definition correlate_full (a v : list F) : list F :=
  let N := List.length a in
  let M := List.length v in
  map (fun k =>
         sum (map (fun n => mul (nth (n + k - (M - 1)) a zero) (nth n v zero))
                  (filter (fun n => ((M - 1 <=? n + k) && (n + k - (M - 1) <? N))%nat)
                          (seq 0 M))))
      (seq 0 (N + M - 1)).

(** [np.fft.fftfreq(n, d)]. *)
Definition fftfreq (n : nat) (d : F) : list F :=
  let val := div (of_Q 1) (mul (of_Z (Z.of_nat n)) d) in
  let N := ((n - 1) / 2 + 1)%nat in
  map (fun k =>
         mul (of_Z (if (k <? N)%nat then Z.of_nat k else Z.of_nat k - Z.of_nat n)) val)
      (seq 0 n).

End Arrays.

(** *** The binary64 instance *)

(** The float nearest to an integer. *)
Definition float_of_Z (z : Z) : float := SF2Prim (binary_normalize prec emax z 0 false).

(** The float nearest to a rational: what a decimal literal denotes. *)
Definition float_of_Q (q : Q) : float :=
  match Qnum q with
  | Z0 => 0%float
  | Zpos p => SF2Prim (SFdiv prec emax (S754_finite false p 0) (S754_finite false (Qden q) 0))
  | Zneg p => SF2Prim (SFdiv prec emax (S754_finite true p 0) (S754_finite false (Qden q) 0))
  end.

#[export] Instance float_arith : Arith float := {|
  of_Z := float_of_Z;
  of_Q := float_of_Q;
  add := PrimFloat.add;
  sub := PrimFloat.sub;
  mul := PrimFloat.mul;
  div := PrimFloat.div;
  abs := PrimFloat.abs;
  sqrt := PrimFloat.sqrt;
  ltb := PrimFloat.ltb;
  leb := PrimFloat.leb;
  eqb := PrimFloat.eqb
|}.

End Np.

Declare Scope np_scope.
Delimit Scope np_scope with np.
Infix "+" := Np.add : np_scope.
Infix "-" := Np.sub : np_scope.
Infix "*" := Np.mul : np_scope.
Infix "/" := Np.div : np_scope.
Infix "<?" := Np.ltb : np_scope.

(** ** The moments taken from [scipy.stats] *)

Module ScipyStats.

Section Moments.

Context {F : Type} {A : Np.Arith F}.

#[local] Open Scope np_scope.

Fixpoint power (x : F) (k : nat) : F :=
  match k with
  | O => Np.one
  | S k' => x * power x k'
  end.

(** The [k]-th central moment of the whole signal. *)
Definition moment (k : nat) (a : list F) : F :=
  let m := Np.mean a in
  Np.mean (map (fun x => power (x - m) k) a).

(** Modelled from the spec: [scipy.stats.kurtosis] is a library function
    and not part of the repository; section 4.2 gives [signal_kurtosis] as
    the standard 4th standardized central moment of the full waveform, the
    4th central moment over the squared variance. *)
Definition kurtosis (a : list F) : F :=
  let m2 := moment 2 a in
  let m4 := moment 4 a in
  m4 / (m2 * m2).

(** Modelled from the spec: [scipy.stats.skew] is a library function and
    not part of the repository; section 4.2 gives [signal_skewness] as the
    standard 3rd standardized central moment of the full waveform, the 3rd
    central moment over the variance to the power 3/2. *)
Definition skew (a : list F) : F :=
  let m2 := moment 2 a in
  let m3 := moment 3 a in
  m3 / (m2 * Np.sqrt m2).

(** A library whose two moments are the ones above. *)
Definition with_moments (lib : Np.SciLib F) : Np.SciLib F :=
  {| Np.fft_abs := Np.fft_abs lib;
     Np.exp := Np.exp lib;
     Np.log := Np.log lib;
     Np.log10 := Np.log10 lib;
     Np.find_peaks := Np.find_peaks lib;
     Np.entropy := Np.entropy lib;
     Np.kurtosis := kurtosis;
     Np.skew := skew |}.

End Moments.

End ScipyStats.

(** ** audio_processor.py *)

Module AudioProcessor.

Import Np.

(** What [process_audio] reads of a pydub [AudioSegment]: [len(audio)] in
    milliseconds, the channel count, the frame rate and the samples. *)
Record AudioSegment := {
  len_ms : Z;
  channels : Z;
  frame_rate : Z;
  array_of_samples : list Z
}.

Definition target_sample_rate : Z := 16000.
Definition max_duration : Q := 300.
Definition min_duration : Q := 0.5.

Definition Qltb (a b : Q) : bool := negb (Qle_bool b a).

Section Processor.

Context {F : Type} {A : Arith F}.

(** pydub: [AudioSegment.from_file(io.BytesIO(audio_bytes), format="mp3")],
    [audio.set_channels] and [audio.set_frame_rate]. *)
Variable from_file : list Byte.byte -> Py.result AudioSegment.
Variable set_channels : AudioSegment -> Z -> Py.result AudioSegment.
Variable set_frame_rate : AudioSegment -> Z -> Py.result AudioSegment.

(** [f"{duration:.2f}"]. *)
Variable format_2f : Q -> string.

Definition _apply_preemphasis (audio_data : list F) (coef : F) : Py.result (list F) :=
  match audio_data with
  | [] => Py.raise (Py.Exn "IndexError" "index 0 is out of bounds for axis 0 with size 0")
  | first :: rest =>
      Py.ret (first :: zip_with (fun x prev => sub x (mul coef prev)) rest (removelast audio_data))
  end.

(** The default [coef = 0.97]. *)
Definition coef_default : F := of_Q 0.97.

(** The duration is [len(audio) / 1000.0]; it is kept as the exact rational.
    The float quotient is correctly rounded and both limits are binary64
    values, so the two comparisons come out the same on the float. *)
Definition process_audio (audio_bytes : list Byte.byte) : Py.result (list F * Z * Q) :=
  Py.try_except
    (audio <- from_file audio_bytes ;;
     let duration := (len_ms audio # 1000)%Q in
     if Qltb duration min_duration then
       Py.raise (Py.Exn "ValueError"
                   ("Audio too short: " ++ format_2f duration ++ "s (minimum: 0.5s)"))
     else if Qltb max_duration duration then
       Py.raise (Py.Exn "ValueError"
                   ("Audio too long: " ++ format_2f duration ++ "s (maximum: 300s)"))
     else
       audio <- (if (channels audio >? 1)%Z then set_channels audio 1 else Py.ret audio) ;;
       audio <- (if negb (frame_rate audio =? target_sample_rate)%Z
                 then set_frame_rate audio target_sample_rate else Py.ret audio) ;;
       let samples := array_of_samples audio in
       let audio_data := map (fun s => div (of_Z s) (of_Z (2 ^ 15))) samples in
       let dc := mean audio_data in
       let audio_data := map (fun x => sub x dc) audio_data in
       audio_data <- _apply_preemphasis audio_data coef_default ;;
       Py.ret (audio_data, target_sample_rate, duration))
    (fun e => Py.raise (Py.Exn "ValueError" ("Failed to process audio file: " ++ Py.exn_msg e))).

End Processor.

(** The dict returned by [validate_audio_quality]. *)
Record Quality (F : Type) := {
  clipping_ratio : F;
  is_clipped : bool;
  signal_power : F;
  is_silent : bool;
  dc_offset : F
}.

Arguments clipping_ratio {F}.
Arguments is_clipped {F}.
Arguments signal_power {F}.
Arguments is_silent {F}.
Arguments dc_offset {F}.

Section QualityCheck.

Context {F : Type} {A : Arith F}.

(** [np.sum(np.abs(audio_data) > 0.99)] counts the samples, and the
    quotient of the two integers is a float. *)
Definition validate_audio_quality (audio_data : list F) (sample_rate : Z) : Quality F :=
  let clipped := filter (fun x => gtb (abs x) (of_Q 0.99)) audio_data in
  let clipping_ratio :=
    div (of_Z (Z.of_nat (List.length clipped))) (of_Z (Z.of_nat (List.length audio_data))) in
  let signal_power := mean (square audio_data) in
  let dc_offset := mean audio_data in
  {| clipping_ratio := clipping_ratio;
     is_clipped := gtb clipping_ratio (of_Q 0.01);
     signal_power := signal_power;
     is_silent := ltb signal_power (of_Q 0.001);
     dc_offset := dc_offset |}.

End QualityCheck.

End AudioProcessor.

(** ** voice_detector.py: the scorer, the classification and the indicators *)

Module VoiceDetector.

#[local] Open Scope float_scope.

(** The dict built by [_extract_features]: thirteen fixed keys. *)
Record FeatureVector (V : Type) := mkFeatures {
  spectral_flatness : V;
  spectral_centroid : V;
  spectral_rolloff : V;
  harmonic_ratio : V;
  zero_crossing_rate : V;
  zcr_std : V;
  jitter : V;
  shimmer : V;
  mfcc_variance : V;
  energy_entropy : V;
  dynamic_range : V;
  signal_kurtosis : V;
  signal_skewness : V
}.

Arguments mkFeatures {V}.
Arguments spectral_flatness {V}.
Arguments spectral_centroid {V}.
Arguments spectral_rolloff {V}.
Arguments harmonic_ratio {V}.
Arguments zero_crossing_rate {V}.
Arguments zcr_std {V}.
Arguments jitter {V}.
Arguments shimmer {V}.
Arguments mfcc_variance {V}.
Arguments energy_entropy {V}.
Arguments dynamic_range {V}.
Arguments signal_kurtosis {V}.
Arguments signal_skewness {V}.

(** The keys of the dict, in insertion order. *)
Definition items {V} (f : FeatureVector V) : list (string * V) :=
  [ ("spectral_flatness", spectral_flatness f);
    ("spectral_centroid", spectral_centroid f);
    ("spectral_rolloff", spectral_rolloff f);
    ("harmonic_ratio", harmonic_ratio f);
    ("zero_crossing_rate", zero_crossing_rate f);
    ("zcr_std", zcr_std f);
    ("jitter", jitter f);
    ("shimmer", shimmer f);
    ("mfcc_variance", mfcc_variance f);
    ("energy_entropy", energy_entropy f);
    ("dynamic_range", dynamic_range f);
    ("signal_kurtosis", signal_kurtosis f);
    ("signal_skewness", signal_skewness f) ].

Definition map_features {V W} (g : V -> W) (f : FeatureVector V) : FeatureVector W :=
  mkFeatures
    (g (spectral_flatness f)) (g (spectral_centroid f)) (g (spectral_rolloff f))
    (g (harmonic_ratio f)) (g (zero_crossing_rate f)) (g (zcr_std f))
    (g (jitter f)) (g (shimmer f)) (g (mfcc_variance f)) (g (energy_entropy f))
    (g (dynamic_range f)) (g (signal_kurtosis f)) (g (signal_skewness f)).

(** [self.thresholds]. *)
Record Thresholds := {
  spectral_flatness_threshold : float;
  harmonic_ratio_threshold : float;
  zero_crossing_rate_std : float;
  jitter_threshold : float;
  shimmer_threshold : float;
  mel_cepstral_distortion : float
}.

Definition thresholds : Thresholds := {|
  spectral_flatness_threshold := 0.15;
  harmonic_ratio_threshold := 0.75;
  zero_crossing_rate_std := 0.02;
  jitter_threshold := 0.005;
  shimmer_threshold := 0.05;
  mel_cepstral_distortion := 2.5
|}.

(** [self.language_models]: a dict of dicts. *)
Definition language_models : list (string * list (string * float)) :=
  [ ("tamil", [("phoneme_weight", 1.1)]);
    ("english", [("phoneme_weight", 1.0)]);
    ("hindi", [("phoneme_weight", 1.05)]);
    ("malayalam", [("phoneme_weight", 1.1)]);
    ("telugu", [("phoneme_weight", 1.08)]) ].

(** *** The feature extractor

    [F] is the element type of the signal, [lib] the functions taken from
    scipy and numpy. [float(...)] of a value is the value. *)

Section Extractor.

Context {F : Type} {A : Np.Arith F}.
Variable lib : Np.SciLib F.

#[local] Open Scope np_scope.

(** The literal [1e-10]. *)
Definition eps : F := Np.of_Q 1e-10.

(** [np.abs(fft(audio_data))]; [scipy.fft.fft] raises on an empty array. *)
Definition abs_fft (audio_data : list F) : Py.result (list F) :=
  match audio_data with
  | [] => Py.raise (Py.Exn "ValueError" "invalid number of data points (0) specified")
  | _ => Py.ret (Np.fft_abs lib audio_data)
  end.

(** [np.correlate(audio_data, audio_data, mode='full')]; it raises on an empty array. *)
Definition autocorrelate (audio_data : list F) : Py.result (list F) :=
  match audio_data with
  | [] => Py.raise (Py.Exn "ValueError" "first array argument cannot be empty")
  | _ => Py.ret (Np.correlate_full audio_data audio_data)
  end.

(** [np.max(a)]. *)
Definition np_max (a : list F) : Py.result F :=
  Py.of_option (Np.amax a)
    (Py.Exn "ValueError" "zero-size array to reduction operation maximum which has no identity").

(** The frames [audio_data[i:i+frame_length]] for [i] in
    [range(0, len(audio_data) - frame_length, hop_length)]. *)
Definition frames (audio_data : list F) (frame_length hop_length : nat) : list (list F) :=
  map (fun i => Np.slice audio_data i (i + frame_length))
      (Np.range (Z.of_nat (List.length audio_data) - Z.of_nat frame_length) hop_length).

Definition _calculate_spectral_flatness (audio_data : list F) : Py.result F :=
  spectrum <- abs_fft audio_data ;;
  let spectrum := firstn (List.length spectrum / 2) spectrum in
  let geometric_mean :=
    Np.exp lib (Np.mean (map (fun s => Np.log lib (s + eps)) spectrum)) in
  let arithmetic_mean := Np.mean spectrum in
  let flatness := geometric_mean / (arithmetic_mean + eps) in
  Py.ret flatness.

Definition _calculate_spectral_centroid (audio_data : list F) (sample_rate : Z) : Py.result F :=
  spectrum <- abs_fft audio_data ;;
  if (sample_rate =? 0)%Z then
    Py.raise (Py.Exn "ZeroDivisionError" "division by zero")
  else
    let freqs := Np.fftfreq (List.length audio_data) (Np.of_Q 1 / Np.of_Z sample_rate) in
    let freqs := firstn (List.length freqs / 2) freqs in
    let spectrum := firstn (List.length spectrum / 2) spectrum in
    let centroid := Np.sum (Np.zip_with Np.mul freqs spectrum) / (Np.sum spectrum + eps) in
    Py.ret centroid.

Definition _calculate_spectral_rolloff (audio_data : list F) (sample_rate : Z) : Py.result F :=
  spectrum <- abs_fft audio_data ;;
  let spectrum := firstn (List.length spectrum / 2) spectrum in
  let total_energy := Np.sum spectrum in
  let threshold := Np.of_Q 0.85 * total_energy in
  let cumsum := Np.cumsum spectrum in
  let rolloff_idx := Np.where_ (fun c => Np.geb c threshold) cumsum in
  match rolloff_idx with
  | idx :: _ =>
      let rolloff_freq :=
        Np.of_Z (Z.of_nat idx * sample_rate) / Np.of_Z (2 * Z.of_nat (List.length spectrum)) in
      Py.ret rolloff_freq
  | [] => Py.ret (Np.of_Q 0.0)
  end.

Definition _calculate_harmonic_ratio (audio_data : list F) : Py.result F :=
  autocorr <- autocorrelate audio_data ;;
  let autocorr := skipn (List.length autocorr / 2) autocorr in
  if (List.length autocorr <? 2)%nat then Py.ret (Np.of_Q 0.5)
  else
    let peaks := Np.find_peaks lib (skipn 1 autocorr) (Np.of_Z 0) in
    if (0 <? List.length peaks)%nat then
      peak_max <- np_max autocorr ;;
      let harmonic_strength :=
        Np.mean (map (fun p => nth (p + 1) autocorr Np.zero) peaks) / (peak_max + eps) in
      Py.ret (Np.py_min harmonic_strength (Np.of_Q 1.0))
    else Py.ret (Np.of_Q 0.3).

Definition _calculate_zero_crossing_rate (audio_data : list F) : F :=
  let zero_crossings :=
    Np.sum (map Np.abs (Np.diff (map Np.sign audio_data))) / Np.of_Z 2 in
  let zcr := zero_crossings / Np.len audio_data in
  zcr.

Definition _calculate_zcr_std (audio_data : list F) : F :=
  let frame_length := 1024%nat in
  let hop_length := 512%nat in
  let zcr_values :=
    map _calculate_zero_crossing_rate (frames audio_data frame_length hop_length) in
  match zcr_values with
  | [] => Np.of_Q 0.0
  | _ => Np.std zcr_values
  end.

Definition _calculate_jitter (audio_data : list F) (sample_rate : Z) : Py.result F :=
  autocorr <- autocorrelate audio_data ;;
  let autocorr := skipn (List.length autocorr / 2) autocorr in
  autocorr_max <- np_max autocorr ;;
  let peaks := Np.find_peaks lib (skipn 1 autocorr) (Np.of_Q 0.3 * autocorr_max) in
  if (1 <? List.length peaks)%nat then
    let periods := map Np.of_Z (Np.diffZ (map Z.of_nat peaks)) in
    let jitter := Np.std periods / (Np.mean periods + eps) in
    Py.ret (Np.py_min jitter (Np.of_Q 1.0))
  else Py.ret (Np.of_Q 0.01).

Definition _calculate_shimmer (audio_data : list F) : F :=
  let frame_length := 1024%nat in
  let hop_length := 512%nat in
  let amplitudes :=
    map (fun frame => Np.sqrt (Np.mean (Np.square frame)))
        (frames audio_data frame_length hop_length) in
  if (1 <? List.length amplitudes)%nat then
    let shimmer := Np.std amplitudes / (Np.mean amplitudes + eps) in
    Np.py_min shimmer (Np.of_Q 1.0)
  else Np.of_Q 0.05.

Definition _calculate_mfcc_variance (audio_data : list F) (sample_rate : Z) : Py.result F :=
  spectrum <- abs_fft audio_data ;;
  let spectrum := firstn (List.length spectrum / 2) spectrum in
  let mel_spectrum := map (fun s => Np.log lib (s + eps)) spectrum in
  let variance := Np.var mel_spectrum in
  Py.ret variance.

Definition _calculate_energy_entropy (audio_data : list F) : F :=
  let frame_length := 1024%nat in
  let hop_length := 512%nat in
  let energies :=
    map (fun frame => Np.sum (Np.square frame)) (frames audio_data frame_length hop_length) in
  match energies with
  | [] => Np.of_Q 0.0
  | _ =>
      let total := Np.sum energies in
      let energies := map (fun e => e / (total + eps)) energies in
      Np.entropy lib (map (fun e => e + eps) energies)
  end.

Definition _calculate_dynamic_range (audio_data : list F) : Py.result F :=
  max_amplitude <- np_max (map Np.abs audio_data) ;;
  let rms := Np.sqrt (Np.mean (Np.square audio_data)) in
  if Np.gtb rms (Np.of_Z 0) then
    let dynamic_range := Np.of_Z 20 * Np.log10 lib (max_amplitude / (rms + eps)) in
    Py.ret dynamic_range
  else Py.ret (Np.of_Q 0.0).

Definition _extract_features
    (audio_data : list F) (sample_rate : Z) (language : string) : Py.result (FeatureVector F) :=
  f_spectral_flatness <- _calculate_spectral_flatness audio_data ;;
  f_spectral_centroid <- _calculate_spectral_centroid audio_data sample_rate ;;
  f_spectral_rolloff <- _calculate_spectral_rolloff audio_data sample_rate ;;
  f_harmonic_ratio <- _calculate_harmonic_ratio audio_data ;;
  let f_zero_crossing_rate := _calculate_zero_crossing_rate audio_data in
  let f_zcr_std := _calculate_zcr_std audio_data in
  f_jitter <- _calculate_jitter audio_data sample_rate ;;
  let f_shimmer := _calculate_shimmer audio_data in
  f_mfcc_variance <- _calculate_mfcc_variance audio_data sample_rate ;;
  let f_energy_entropy := _calculate_energy_entropy audio_data in
  f_dynamic_range <- _calculate_dynamic_range audio_data ;;
  let f_signal_kurtosis := Np.kurtosis lib audio_data in
  let f_signal_skewness := Np.skew lib audio_data in
  Py.ret {|
    spectral_flatness := f_spectral_flatness;
    spectral_centroid := f_spectral_centroid;
    spectral_rolloff := f_spectral_rolloff;
    harmonic_ratio := f_harmonic_ratio;
    zero_crossing_rate := f_zero_crossing_rate;
    zcr_std := f_zcr_std;
    jitter := f_jitter;
    shimmer := f_shimmer;
    mfcc_variance := f_mfcc_variance;
    energy_entropy := f_energy_entropy;
    dynamic_range := f_dynamic_range;
    signal_kurtosis := f_signal_kurtosis;
    signal_skewness := f_signal_skewness
  |}.

End Extractor.

Definition _calculate_ai_probability (features : FeatureVector float) (language : string) : float :=
  let ai_score := 0.0 in
  let total_weight := 0.0 in
  let lang_weight :=
    Py.dict_get (Py.dict_get language_models language []) "phoneme_weight" 1.0 in
  let ai_score :=
    if Py.gtb (spectral_flatness features) (spectral_flatness_threshold thresholds)
    then ai_score + 2.0 else ai_score in
  let total_weight := total_weight + 2.0 in
  let ai_score :=
    if Py.gtb (harmonic_ratio features) (harmonic_ratio_threshold thresholds)
    then ai_score + 1.5 else ai_score in
  let total_weight := total_weight + 1.5 in
  let ai_score :=
    if zcr_std features <? zero_crossing_rate_std thresholds
    then ai_score + 1.8 * lang_weight else ai_score in
  let total_weight := total_weight + 1.8 * lang_weight in
  let ai_score :=
    if jitter features <? jitter_threshold thresholds
    then ai_score + 2.2 else ai_score in
  let total_weight := total_weight + 2.2 in
  let ai_score :=
    if shimmer features <? shimmer_threshold thresholds
    then ai_score + 2.0 else ai_score in
  let total_weight := total_weight + 2.0 in
  let ai_score :=
    if mfcc_variance features <? mel_cepstral_distortion thresholds
    then ai_score + 1.5 else ai_score in
  let total_weight := total_weight + 1.5 in
  let ai_score :=
    if energy_entropy features <? 3.5
    then ai_score + 1.0 else ai_score in
  let total_weight := total_weight + 1.0 in
  if Py.gtb total_weight 0 then ai_score / total_weight else 0.5.

Definition _get_ai_indicators (features : FeatureVector float) : list string :=
  let indicators := [] in
  let indicators :=
    if Py.gtb (spectral_flatness features) (spectral_flatness_threshold thresholds)
    then indicators ++ ["High spectral uniformity"] else indicators in
  let indicators :=
    if jitter features <? jitter_threshold thresholds
    then indicators ++ ["Low pitch jitter"] else indicators in
  let indicators :=
    if shimmer features <? shimmer_threshold thresholds
    then indicators ++ ["Low amplitude shimmer"] else indicators in
  let indicators :=
    if zcr_std features <? zero_crossing_rate_std thresholds
    then indicators ++ ["Consistent zero-crossing rate"] else indicators in
  let indicators :=
    if Py.gtb (harmonic_ratio features) (harmonic_ratio_threshold thresholds)
    then indicators ++ ["Strong harmonic structure"] else indicators in
  indicators.

Definition _get_human_indicators (features : FeatureVector float) : list string :=
  let indicators := [] in
  let indicators :=
    if Py.gtb (jitter features) (jitter_threshold thresholds)
    then indicators ++ ["Natural pitch variation"] else indicators in
  let indicators :=
    if Py.gtb (shimmer features) (shimmer_threshold thresholds)
    then indicators ++ ["Natural amplitude variation"] else indicators in
  let indicators :=
    if Py.gtb (zcr_std features) (zero_crossing_rate_std thresholds)
    then indicators ++ ["Variable articulation"] else indicators in
  let indicators :=
    if Py.gtb (energy_entropy features) 3.5
    then indicators ++ ["Dynamic energy distribution"] else indicators in
  indicators.

Definition _generate_explanation
    (features : FeatureVector float) (ai_probability : float) (language : string) : string :=
  let classification :=
    if Py.gtb ai_probability 0.5 then "AI-generated" else "human-generated" in
  let confidence :=
    if Py.gtb ai_probability 0.5 then ai_probability else 1 - ai_probability in
  let reasons := [] in
  let reasons :=
    if Py.gtb (spectral_flatness features) (spectral_flatness_threshold thresholds)
    then reasons ++ ["uniform spectral distribution"] else reasons in
  let reasons :=
    if jitter features <? jitter_threshold thresholds
    then reasons ++ ["minimal pitch variation"] else reasons in
  let reasons :=
    if shimmer features <? shimmer_threshold thresholds
    then reasons ++ ["consistent amplitude"] else reasons in
  let reasons :=
    if zcr_std features <? zero_crossing_rate_std thresholds
    then reasons ++ ["stable zero-crossing rate"] else reasons in
  let reasons :=
    if Py.gtb (harmonic_ratio features) (harmonic_ratio_threshold thresholds)
    then reasons ++ ["high harmonic content"] else reasons in
  let reasons :=
    match reasons with
    | [] => ["natural prosodic variation"; "organic spectral characteristics"]
    | _ => reasons
    end in
  let explanation : string :=
    ("The audio sample is classified as " ++ classification ++ " with "
      ++ Py.format_pct 1 confidence ++ " confidence. "
      ++ "Analysis of the " ++ language ++ " speech revealed: "
      ++ Py.join ", " (firstn 3 reasons) ++ ". ")%string in
  if Py.gtb ai_probability 0.5
  then (explanation ++ "These patterns are typical of synthetic voice generation systems.")%string
  else (explanation
         ++ "These characteristics are consistent with natural human speech production.")%string.

(** The value of ["detailed_analysis"]. *)
Record DetailedAnalysis := {
  features_rounded : FeatureVector float;
  ai_indicators : list string;
  human_indicators : list string
}.

(** The dict returned by [detect]; ["detailed_analysis"] is absent unless asked for. *)
Record Detection := {
  classification : string;
  confidence_score : float;
  explanation : string;
  detailed_analysis : option DetailedAnalysis
}.

(** Line 67 of [detect]. *)
Definition classify (ai_probability : float) : string :=
  if Py.gtb ai_probability 0.5 then "ai_generated" else "human_generated".

(** Line 68 of [detect]: the confidence before it is rounded. *)
Definition raw_confidence (ai_probability : float) : float :=
  if String.eqb (classify ai_probability) "ai_generated"
  then ai_probability else 1 - ai_probability.

(** [detect] from the point where the features are known (lines 63 to 86). *)
Definition detect_features
    (features : FeatureVector float) (language : string) (include_features : bool) : Detection :=
  let ai_probability := _calculate_ai_probability features language in
  let classification := classify ai_probability in
  let confidence_score := raw_confidence ai_probability in
  let explanation := _generate_explanation features ai_probability language in
  {| classification := classification;
     confidence_score := Py.round confidence_score 4;
     explanation := explanation;
     detailed_analysis :=
       if include_features
       then Some {| features_rounded := map_features (fun v => Py.round v 4) features;
                    ai_indicators := _get_ai_indicators features;
                    human_indicators := _get_human_indicators features |}
       else None |}.

(** [detect] on a signal of binary64 values. *)
Definition detect
    (lib : Np.SciLib float) (audio_data : list float) (sample_rate : Z)
    (language : string) (include_features : bool) : Py.result Detection :=
  features <- _extract_features (A := Np.float_arith) lib audio_data sample_rate language ;;
  Py.ret (detect_features features language include_features).

Definition detect_language {A} (audio_data : A) (sample_rate : Z) : string := "english".

End VoiceDetector.

(** ** The scorer as the specification words it: a rule table and a fold *)

Module ScorerSpec.

Import VoiceDetector.

#[local] Open Scope float_scope.

Inductive comparison := Greater | Less.

Record ScoringRule := {
  feature_key : FeatureVector float -> float;
  direction : comparison;
  threshold : float;
  weight : float;
  language_weighted : bool
}.

(** The seven rules of the default configuration, in the order of section 4.3. *)
Definition rule_table : list ScoringRule :=
  [ {| feature_key := spectral_flatness; direction := Greater; threshold := 0.15;
       weight := 2.0; language_weighted := false |};
    {| feature_key := harmonic_ratio; direction := Greater; threshold := 0.75;
       weight := 1.5; language_weighted := false |};
    {| feature_key := zcr_std; direction := Less; threshold := 0.02;
       weight := 1.8; language_weighted := true |};
    {| feature_key := jitter; direction := Less; threshold := 0.005;
       weight := 2.2; language_weighted := false |};
    {| feature_key := shimmer; direction := Less; threshold := 0.05;
       weight := 2.0; language_weighted := false |};
    {| feature_key := mfcc_variance; direction := Less; threshold := 2.5;
       weight := 1.5; language_weighted := false |};
    {| feature_key := energy_entropy; direction := Less; threshold := 3.5;
       weight := 1.0; language_weighted := false |} ].

(** The five-entry language weight table. *)
Definition language_weights : list (string * float) :=
  [ ("tamil", 1.1); ("english", 1.0); ("hindi", 1.05); ("malayalam", 1.1); ("telugu", 1.08) ].

(** Unknown codes default to 1.0. *)
Definition language_multiplier (code : string) : float :=
  Py.dict_get language_weights code 1.0.

(** The rule's comparison holds in the AI-leaning direction. *)
Definition satisfied (features : FeatureVector float) (r : ScoringRule) : bool :=
  match direction r with
  | Greater => Py.gtb (feature_key r features) (threshold r)
  | Less => feature_key r features <? threshold r
  end.

Definition effective_weight (multiplier : float) (r : ScoringRule) : float :=
  if language_weighted r then weight r * multiplier else weight r.

(** One step of the iteration over the table: [(ai_score, total_weight)]. *)
Definition accumulate (features : FeatureVector float) (multiplier : float)
    (acc : float * float) (r : ScoringRule) : float * float :=
  let w := effective_weight multiplier r in
  ((if satisfied features r then fst acc + w else fst acc), snd acc + w).

Definition probability (features : FeatureVector float) (code : string) : float :=
  let acc := fold_left (accumulate features (language_multiplier code)) rule_table (0, 0) in
  let ai_score := fst acc in
  let total_weight := snd acc in
  if total_weight =? 0 then 0.5 else ai_score / total_weight.

End ScorerSpec.

(** ** The framed deviation as the specification words it *)

Module FramingSpec.

Import VoiceDetector.

Section Spec.

Context {F : Type} {A : Np.Arith F}.

(** The start of every full frame of 1024 samples at hop 512 in a signal of
    [n] samples: the multiples of 512 from which 1024 samples remain. *)
Definition full_frame_offsets (n : nat) : list nat :=
  filter (fun i => (i + 1024 <=? n)%nat) (map (fun k => (k * 512)%nat) (seq 0 (S (n / 512)))).

(** The standard deviation of the zero-crossing rate over every full
    frame; 0.0 if there is none. *)
Definition zcr_std_spec (audio_data : list F) : F :=
  match full_frame_offsets (List.length audio_data) with
  | [] => Np.of_Q 0.0
  | offsets =>
      Np.std (map (fun i => _calculate_zero_crossing_rate (Np.slice audio_data i (i + 1024)))
                  offsets)
  end.

End Spec.

End FramingSpec.

(** ** The exact-arithmetic instance

    The same array code over the reals, for what the claims say of the
    values a computation has before rounding. [None] is a value that is not
    a finite number: the quotient by zero, the logarithm of a non-positive
    number, the mean of an empty array. *)

Module Exact.

Import Reals Qreals.

#[local] Open Scope R_scope.

Definition lift2 (f : R -> R -> R) (a b : option R) : option R :=
  match a, b with
  | Some x, Some y => Some (f x y)
  | _, _ => None
  end.

Definition xdiv (a b : option R) : option R :=
  match a, b with
  | Some x, Some y => if Req_dec_T y 0 then None else Some (x / y)
  | _, _ => None
  end.

Definition xsqrt (a : option R) : option R :=
  match a with
  | Some x => if Rlt_dec x 0 then None else Some (sqrt x)
  | None => None
  end.

Definition xltb (a b : option R) : bool :=
  match a, b with
  | Some x, Some y => if Rlt_dec x y then true else false
  | _, _ => false
  end.

Definition xleb (a b : option R) : bool :=
  match a, b with
  | Some x, Some y => if Rle_dec x y then true else false
  | _, _ => false
  end.

Definition xeqb (a b : option R) : bool :=
  match a, b with
  | Some x, Some y => if Req_dec_T x y then true else false
  | _, _ => false
  end.

#[export] Instance arith : Np.Arith (option R) := {|
  Np.of_Z := fun z => Some (IZR z);
  Np.of_Q := fun q => Some (Q2R q);
  Np.add := lift2 Rplus;
  Np.sub := lift2 Rminus;
  Np.mul := lift2 Rmult;
  Np.div := xdiv;
  Np.abs := option_map Rabs;
  Np.sqrt := xsqrt;
  Np.ltb := xltb;
  Np.leb := xleb;
  Np.eqb := xeqb
|}.

Definition xexp (a : option R) : option R := option_map exp a.

Definition xlog (a : option R) : option R :=
  match a with
  | Some x => if Rlt_dec 0 x then Some (ln x) else None
  | None => None
  end.

Definition xlog10 (a : option R) : option R :=
  match a with
  | Some x => if Rlt_dec 0 x then Some (ln x / ln 10) else None
  | None => None
  end.

(** The samples of a signal, if all of them are finite. *)
Fixpoint finite_values (a : list (option R)) : option (list R) :=
  match a with
  | [] => Some []
  | Some x :: rest => option_map (cons x) (finite_values rest)
  | None :: _ => None
  end.

Definition rsum (l : list R) : R := fold_right Rplus 0 l.

(** The discrete Fourier transform of a real signal: bin [k] is the sum
    over [n] of [x[n] * exp(-2 pi i k n / N)]. *)
Definition dft_re (x : list R) (k : nat) : R :=
  let N := List.length x in
  rsum (map (fun n => nth n x 0 * cos (2 * PI * INR k * INR n / INR N)) (seq 0 N)).

Definition dft_im (x : list R) (k : nat) : R :=
  let N := List.length x in
  rsum (map (fun n => - (nth n x 0 * sin (2 * PI * INR k * INR n / INR N))) (seq 0 N)).

(** The magnitude of every bin. *)
Definition dft_abs_R (x : list R) : list R :=
  map (fun k => sqrt (dft_re x k * dft_re x k + dft_im x k * dft_im x k))
      (seq 0 (List.length x)).

(** [np.abs(fft(a))]: a sample that is not finite spoils every bin. *)
Definition dft_abs (a : list (option R)) : list (option R) :=
  match finite_values a with
  | Some x => map Some (dft_abs_R x)
  | None => map (fun _ => None) a
  end.

(** A library whose transform, exponential and logarithms are the exact ones. *)
Definition transforms (lib : Np.SciLib (option R)) : Np.SciLib (option R) :=
  {| Np.fft_abs := dft_abs;
     Np.exp := xexp;
     Np.log := xlog;
     Np.log10 := xlog10;
     Np.find_peaks := Np.find_peaks lib;
     Np.entropy := Np.entropy lib;
     Np.kurtosis := Np.kurtosis lib;
     Np.skew := Np.skew lib |}.

(** The fields the spectral features do not read, left blank. *)
Definition blank : Np.SciLib (option R) :=
  {| Np.fft_abs := fun a => a;
     Np.exp := fun x => x;
     Np.log := fun x => x;
     Np.log10 := fun x => x;
     Np.find_peaks := fun _ _ => [];
     Np.entropy := fun _ => None;
     Np.kurtosis := fun _ => None;
     Np.skew := fun _ => None |}.

End Exact.

(** ** The scorer seen through its seven outcomes *)

Module ScorerView.

Import VoiceDetector.

#[local] Open Scope float_scope.

(** The seven comparisons of [_calculate_ai_probability], in source order. *)
Definition comparisons (features : FeatureVector float) : list bool :=
  [ Py.gtb (spectral_flatness features) (spectral_flatness_threshold thresholds);
    Py.gtb (harmonic_ratio features) (harmonic_ratio_threshold thresholds);
    zcr_std features <? zero_crossing_rate_std thresholds;
    jitter features <? jitter_threshold thresholds;
    shimmer features <? shimmer_threshold thresholds;
    mfcc_variance features <? mel_cepstral_distortion thresholds;
    energy_entropy features <? 3.5 ].

(** The phoneme weight the scorer looks up for a language. *)
Definition lang_weight (language : string) : float :=
  Py.dict_get (Py.dict_get language_models language []) "phoneme_weight" 1.0.

(** The body of the scorer as a function of the seven outcomes and the weight. *)
Definition vote (c1 c2 c3 c4 c5 c6 c7 : bool) (w : float) : float :=
  let ai_score := 0.0 in
  let total_weight := 0.0 in
  let ai_score := if c1 then ai_score + 2.0 else ai_score in
  let total_weight := total_weight + 2.0 in
  let ai_score := if c2 then ai_score + 1.5 else ai_score in
  let total_weight := total_weight + 1.5 in
  let ai_score := if c3 then ai_score + 1.8 * w else ai_score in
  let total_weight := total_weight + 1.8 * w in
  let ai_score := if c4 then ai_score + 2.2 else ai_score in
  let total_weight := total_weight + 2.2 in
  let ai_score := if c5 then ai_score + 2.0 else ai_score in
  let total_weight := total_weight + 2.0 in
  let ai_score := if c6 then ai_score + 1.5 else ai_score in
  let total_weight := total_weight + 1.5 in
  let ai_score := if c7 then ai_score + 1.0 else ai_score in
  let total_weight := total_weight + 1.0 in
  if Py.gtb total_weight 0 then ai_score / total_weight else 0.5.

(** What the confidence of a probability [p] satisfies, before and after rounding. *)
Definition confidence_bounds (p : float) : Prop :=
  raw_confidence p = Py.max p (1 - p) /\
  (0.5 <=? raw_confidence p) = true /\ (raw_confidence p <=? 1.0) = true /\
  (0.5 <=? Py.round (raw_confidence p) 4) = true /\
  (Py.round (raw_confidence p) 4 <=? 1.0) = true.

(** The labels whose test holds, in order. *)
Definition labels (tests : list (bool * string)) : list string :=
  map snd (filter fst tests).

End ScorerView.

(** ** Concrete inputs and the shape of a wrapped failure *)

Module Cases.

Import AudioProcessor.

#[local] Open Scope string_scope.

(** What the wrapped failure looks like. *)
Definition wrapped (cause : string) : Py.exn :=
  Py.Exn "ValueError" ("Failed to process audio file: " ++ cause).

(** A decoded clip of 200 ms, mono, already at 16 kHz. *)
Definition short_clip : AudioSegment :=
  {| len_ms := 200; channels := 1; frame_rate := 16000; array_of_samples := repeat 0%Z 3200 |}.

(** A float that is neither NaN nor an infinity. *)
Definition is_finite (x : float) : bool :=
  negb (PrimFloat.is_nan x || PrimFloat.is_infinity x).

(** Half a second of digital silence at 16 kHz. *)
Definition silence : list float := repeat 0%float 8000.

(** A constant signal of 1100 samples: one full frame. *)
Definition constant_1100 : list float := repeat 0.5%float 1100.

(** 1536 samples, the last 512 alternating in sign: two full frames, at 0 and at 512. *)
Definition burst_1536 : list float :=
  repeat 0.5%float 1024 ++ flat_map (fun _ => [0.5; -0.5]%float) (seq 0 256).

End Cases.

(** * Properties of the scorer *)

Module ScorerFacts.

Import VoiceDetector ScorerView.

#[local] Open Scope float_scope.

Lemma lang_weight_cases (language : string) :
  lang_weight language = 1.1 \/ lang_weight language = 1.0 \/
  lang_weight language = 1.05 \/ lang_weight language = 1.08.
Proof.
  unfold lang_weight. cbv [Py.dict_get language_models].
  repeat match goal with
         | |- context [String.eqb ?a language] => destruct (String.eqb a language)
         end; auto.
Qed.

Lemma language_multiplier_lookup (language : string) :
  ScorerSpec.language_multiplier language = lang_weight language.
Proof.
  unfold lang_weight, ScorerSpec.language_multiplier.
  cbv [Py.dict_get language_models ScorerSpec.language_weights].
  repeat match goal with
         | |- context [String.eqb ?a language] => destruct (String.eqb a language)
         end; reflexivity.
Qed.

Lemma probability_vote (features : FeatureVector float) (language : string) :
  _calculate_ai_probability features language =
  vote (Py.gtb (spectral_flatness features) 0.15)
       (Py.gtb (harmonic_ratio features) 0.75)
       (zcr_std features <? 0.02)
       (jitter features <? 0.005)
       (shimmer features <? 0.05)
       (mfcc_variance features <? 2.5)
       (energy_entropy features <? 3.5)
       (lang_weight language).
Proof. reflexivity. Qed.

Lemma spec_probability_vote (features : FeatureVector float) (language : string) :
  ScorerSpec.probability features language =
  let w := lang_weight language in
  let acc :=
    fold_left (ScorerSpec.accumulate features w) ScorerSpec.rule_table (0, 0) in
  if snd acc =? 0 then 0.5 else fst acc / snd acc.
Proof.
  unfold ScorerSpec.probability. rewrite language_multiplier_lookup. reflexivity.
Qed.

Ltac weight_cases language :=
  let H := fresh "Hw" in
  pose proof (lang_weight_cases language) as H;
  destruct H as [H | [H | [H | H]]]; rewrite H; clear H.

(** C1. For every feature vector and language code the scorer computes what
    iterating the seven-rule table computes: a rule's weight goes to
    [ai_score] when its comparison holds and to [total_weight] always, the
    [zcr_std] weight is 1.8 times the multiplier of the five-entry language
    table (1.0 for unknown codes), and the result is
    [ai_score / total_weight], or 0.5 if [total_weight] is zero. *)
Theorem scorer_refines_rule_table (features : FeatureVector float) (language : string) :
  _calculate_ai_probability features language = ScorerSpec.probability features language
  /\ List.length ScorerSpec.rule_table = 7%nat
  /\ List.length ScorerSpec.language_weights = 5%nat.
Proof.
  split; [ | split; reflexivity ].
  rewrite probability_vote, spec_probability_vote.
  destruct features as [sf sc sr hr z zs j sh mf ee dr sk ss].
  cbv [spectral_flatness harmonic_ratio zcr_std jitter shimmer mfcc_variance energy_entropy].
  weight_cases language;
    cbv [ScorerSpec.rule_table ScorerSpec.accumulate ScorerSpec.satisfied
         ScorerSpec.effective_weight ScorerSpec.feature_key ScorerSpec.direction
         ScorerSpec.threshold ScorerSpec.weight ScorerSpec.language_weighted
         fold_left fst snd Py.gtb
         spectral_flatness harmonic_ratio zcr_std jitter shimmer mfcc_variance energy_entropy];
    destruct (0.15 <? sf), (0.75 <? hr), (zs <? 0.02), (j <? 0.005), (sh <? 0.05),
             (mf <? 2.5), (ee <? 3.5);
    vm_compute; reflexivity.
Qed.

Lemma comparisons_all (features : FeatureVector float) :
  forallb id (comparisons features) = true ->
  Py.gtb (spectral_flatness features) 0.15 = true /\
  Py.gtb (harmonic_ratio features) 0.75 = true /\
  (zcr_std features <? 0.02) = true /\
  (jitter features <? 0.005) = true /\
  (shimmer features <? 0.05) = true /\
  (mfcc_variance features <? 2.5) = true /\
  (energy_entropy features <? 3.5) = true.
Proof.
  unfold comparisons, id; cbn [forallb thresholds spectral_flatness_threshold
    harmonic_ratio_threshold zero_crossing_rate_std jitter_threshold shimmer_threshold
    mel_cepstral_distortion].
  intros H.
  repeat (apply andb_prop in H; destruct H as [? H]).
  repeat split; assumption.
Qed.

Lemma comparisons_none (features : FeatureVector float) :
  existsb id (comparisons features) = false ->
  Py.gtb (spectral_flatness features) 0.15 = false /\
  Py.gtb (harmonic_ratio features) 0.75 = false /\
  (zcr_std features <? 0.02) = false /\
  (jitter features <? 0.005) = false /\
  (shimmer features <? 0.05) = false /\
  (mfcc_variance features <? 2.5) = false /\
  (energy_entropy features <? 3.5) = false.
Proof.
  unfold comparisons, id; cbn [existsb thresholds spectral_flatness_threshold
    harmonic_ratio_threshold zero_crossing_rate_std jitter_threshold shimmer_threshold
    mel_cepstral_distortion].
  intros H.
  repeat (apply orb_false_elim in H; destruct H as [? H]).
  repeat split; assumption.
Qed.

Lemma classification_of_detect
    (features : FeatureVector float) (language : string) (include_features : bool) :
  classification (detect_features features language include_features) =
  classify (_calculate_ai_probability features language).
Proof. reflexivity. Qed.

Lemma confidence_of_detect
    (features : FeatureVector float) (language : string) (include_features : bool) :
  confidence_score (detect_features features language include_features) =
  Py.round (raw_confidence (_calculate_ai_probability features language)) 4.
Proof. reflexivity. Qed.

(** C3. A feature vector that satisfies all seven AI-leaning comparisons
    scores exactly 1.0 and is classified [ai_generated]; one that satisfies
    none scores below 0.5 and is classified [human_generated]. *)
Theorem all_or_none_of_the_thresholds
    (features : FeatureVector float) (language : string) (include_features : bool) :
  (forallb id (comparisons features) = true ->
     _calculate_ai_probability features language = 1.0 /\
     classification (detect_features features language include_features) = "ai_generated")
  /\
  (existsb id (comparisons features) = false ->
     (_calculate_ai_probability features language <? 0.5) = true /\
     classification (detect_features features language include_features) = "human_generated").
Proof.
  rewrite classification_of_detect, probability_vote.
  split; intros H.
  - apply comparisons_all in H.
    destruct H as (-> & -> & -> & -> & -> & -> & ->).
    weight_cases language; vm_compute; split; reflexivity.
  - apply comparisons_none in H.
    destruct H as (-> & -> & -> & -> & -> & -> & ->).
    weight_cases language; vm_compute; split; reflexivity.
Qed.

(** A vector on the AI side of every threshold, scored for Tamil. *)
Lemma all_thresholds_witness :
  let features := mkFeatures 0.2 0 0 0.8 0 0.01 0.001 0.01 1 1 0 0 0 in
  forallb id (comparisons features) = true /\
  _calculate_ai_probability features "tamil" = 1.0 /\
  classification (detect_features features "tamil" false) = "ai_generated".
Proof.
  split; [ reflexivity | ].
  apply (all_or_none_of_the_thresholds
           (mkFeatures 0.2 0 0 0.8 0 0.01 0.001 0.01 1 1 0 0 0) "tamil" false).
  reflexivity.
Defined.

Lemma vote_confidence_bounds (c1 c2 c3 c4 c5 c6 c7 : bool) (language : string) :
  confidence_bounds (vote c1 c2 c3 c4 c5 c6 c7 (lang_weight language)).
Proof.
  weight_cases language;
    destruct c1, c2, c3, c4, c5, c6, c7;
    vm_compute; repeat split; reflexivity.
Qed.

(** C4, as the code has it. The classification is [ai_generated] exactly
    when the probability exceeds 0.5 and [human_generated] otherwise; the
    confidence computed is [max(probability, 1 - probability)]; what
    [detect] returns is that value rounded to four decimal places, and it
    lies in [0.5, 1.0]. *)
Theorem classification_and_confidence
    (features : FeatureVector float) (language : string) (include_features : bool) :
  let p := _calculate_ai_probability features language in
  let r := detect_features features language include_features in
  (classification r = "ai_generated" <-> Py.gtb p 0.5 = true) /\
  (classification r = "human_generated" <-> Py.gtb p 0.5 = false) /\
  raw_confidence p = Py.max p (1 - p) /\
  confidence_score r = Py.round (Py.max p (1 - p)) 4 /\
  (0.5 <=? confidence_score r) = true /\ (confidence_score r <=? 1.0) = true.
Proof.
  intros p r.
  assert (Hb : confidence_bounds p).
  { unfold p. rewrite probability_vote. apply vote_confidence_bounds. }
  destruct Hb as (Hmax & _ & _ & Hlo & Hhi).
  unfold r. rewrite classification_of_detect, confidence_of_detect. fold p.
  rewrite <- Hmax.
  repeat split; try assumption;
    unfold classify; destruct (Py.gtb p 0.5); intros; congruence.
Qed.

(** C4 as stated fails on the returned value: with only the spectral
    flatness rule satisfied the probability is 1/6, the maximum is
    0.8333333333333334, and [detect] returns 0.8333. *)
Lemma returned_confidence_is_rounded :
  let features := mkFeatures 0.2 0 0 0 0 1 1 1 10 10 0 0 0 in
  let p := _calculate_ai_probability features "english" in
  confidence_score (detect_features features "english" false) <> Py.max p (1 - p)
  /\ confidence_score (detect_features features "english" false) = 0.8333.
Proof.
  split.
  - intros H. apply (f_equal Prim2SF) in H. vm_compute in H. discriminate H.
  - vm_compute. reflexivity.
Qed.

Lemma In_labels (label : string) (tests : list (bool * string)) :
  In label (labels tests) <-> In (true, label) tests.
Proof.
  unfold labels. induction tests as [ | [[ | ] l] tests IH]; cbn [filter map fst snd In].
  - tauto.
  - rewrite IH. split; intros [H | H]; auto; left; congruence.
  - rewrite IH. split; intros H; auto. destruct H as [H | H]; [ discriminate H | exact H ].
Qed.

Lemma ai_indicators_labels (features : FeatureVector float) :
  _get_ai_indicators features =
  labels [ (Py.gtb (spectral_flatness features) 0.15, "High spectral uniformity");
           (jitter features <? 0.005, "Low pitch jitter");
           (shimmer features <? 0.05, "Low amplitude shimmer");
           (zcr_std features <? 0.02, "Consistent zero-crossing rate");
           (Py.gtb (harmonic_ratio features) 0.75, "Strong harmonic structure") ].
Proof.
  unfold _get_ai_indicators, labels.
  cbn [thresholds spectral_flatness_threshold harmonic_ratio_threshold
       zero_crossing_rate_std jitter_threshold shimmer_threshold].
  destruct (Py.gtb (spectral_flatness features) 0.15), (jitter features <? 0.005),
    (shimmer features <? 0.05), (zcr_std features <? 0.02),
    (Py.gtb (harmonic_ratio features) 0.75); reflexivity.
Qed.

Lemma human_indicators_labels (features : FeatureVector float) :
  _get_human_indicators features =
  labels [ (Py.gtb (jitter features) 0.005, "Natural pitch variation");
           (Py.gtb (shimmer features) 0.05, "Natural amplitude variation");
           (Py.gtb (zcr_std features) 0.02, "Variable articulation");
           (Py.gtb (energy_entropy features) 3.5, "Dynamic energy distribution") ].
Proof.
  unfold _get_human_indicators, labels.
  cbn [thresholds zero_crossing_rate_std jitter_threshold shimmer_threshold].
  destruct (Py.gtb (jitter features) 0.005), (Py.gtb (shimmer features) 0.05),
    (Py.gtb (zcr_std features) 0.02), (Py.gtb (energy_entropy features) 3.5); reflexivity.
Qed.

(** C7, as the code has it. The AI indicators come from five of the
    scorer's seven comparisons (spectral flatness, jitter, shimmer, ZCR
    deviation, harmonic ratio): each label is listed exactly when its
    comparison holds, and nothing else is listed, so the MFCC variance and
    energy entropy rules contribute no AI label. The human indicators come
    from the opposite strict comparisons on jitter, shimmer and ZCR deviation
    and from the check [energy_entropy > 3.5]. *)
Theorem indicators_follow_comparisons (features : FeatureVector float) :
  let ai := _get_ai_indicators features in
  let human := _get_human_indicators features in
  (In "High spectral uniformity" ai <-> nth 0 (comparisons features) false = true) /\
  (In "Strong harmonic structure" ai <-> nth 1 (comparisons features) false = true) /\
  (In "Consistent zero-crossing rate" ai <-> nth 2 (comparisons features) false = true) /\
  (In "Low pitch jitter" ai <-> nth 3 (comparisons features) false = true) /\
  (In "Low amplitude shimmer" ai <-> nth 4 (comparisons features) false = true) /\
  (forall label, In label ai ->
     In label [ "High spectral uniformity"; "Low pitch jitter"; "Low amplitude shimmer";
                "Consistent zero-crossing rate"; "Strong harmonic structure" ]) /\
  (In "Natural pitch variation" human <-> Py.gtb (jitter features) 0.005 = true) /\
  (In "Natural amplitude variation" human <-> Py.gtb (shimmer features) 0.05 = true) /\
  (In "Variable articulation" human <-> Py.gtb (zcr_std features) 0.02 = true) /\
  (In "Dynamic energy distribution" human <-> Py.gtb (energy_entropy features) 3.5 = true) /\
  (forall label, In label human ->
     In label [ "Natural pitch variation"; "Natural amplitude variation";
                "Variable articulation"; "Dynamic energy distribution" ]).
Proof.
  intros ai human. unfold ai, human.
  rewrite ai_indicators_labels, human_indicators_labels.
  unfold comparisons.
  cbn [nth thresholds spectral_flatness_threshold harmonic_ratio_threshold
       zero_crossing_rate_std jitter_threshold shimmer_threshold].
  repeat split; intros; rewrite ?In_labels in *; cbn [In] in *;
    repeat match goal with
           | H : _ \/ _ |- _ => destruct H
           | H : False |- _ => destruct H
           end;
    try congruence;
    try (match goal with H : _ = true |- _ => rewrite H end; auto 10);
    try (match goal with H : (_, _) = (_, _) |- _ => inversion H; subst; auto 10 end).
Qed.

(** C7 as stated fails: here the MFCC variance and energy entropy
    comparisons of the scorer hold, and no AI indicator is listed. *)
Lemma mfcc_rule_has_no_indicator :
  let features := mkFeatures 0 0 0 0 0 1 1 1 1 1 0 0 0 in
  nth 5 (comparisons features) false = true /\
  nth 6 (comparisons features) false = true /\
  _get_ai_indicators features = [].
Proof. vm_compute. repeat split; reflexivity. Qed.

End ScorerFacts.

(** * Properties of the audio processor *)

Module AudioProcessorFacts.

Import Np AudioProcessor Cases.

#[local] Open Scope string_scope.

(** Lists: what [audio_data[:-1]] and an elementwise operation keep. *)

Lemma zip_with_length {X Y Z} (f : X -> Y -> Z) (a : list X) (b : list Y) :
  List.length (zip_with f a b) = Nat.min (List.length a) (List.length b).
Proof. unfold zip_with. rewrite length_map. apply length_combine. Qed.

Lemma zip_with_nth_error {X Y Z} (f : X -> Y -> Z) (a : list X) (b : list Y)
    (k : nat) (x : X) (y : Y) :
  nth_error a k = Some x -> nth_error b k = Some y ->
  nth_error (zip_with f a b) k = Some (f x y).
Proof.
  unfold zip_with. revert b k.
  induction a as [ | x0 a IH]; intros [ | y0 b] [ | k]; cbn; try discriminate.
  - intros [= ->] [= ->]. reflexivity.
  - apply IH.
Qed.

Lemma removelast_length {X} (l : list X) :
  List.length (removelast l) = (List.length l - 1)%nat.
Proof.
  induction l as [ | x [ | y l] IH]; cbn in *; try reflexivity.
  rewrite IH. lia.
Qed.

Lemma removelast_nth_error {X} (l : list X) (k : nat) :
  (S k < List.length l)%nat -> nth_error (removelast l) k = nth_error l k.
Proof.
  revert k. induction l as [ | x [ | y l] IH]; intros k Hk; cbn in Hk; try lia.
  destruct k as [ | k]; [ reflexivity | ].
  change (nth_error (removelast (y :: l)) k = nth_error (y :: l) k).
  apply IH. cbn. lia.
Qed.

Section Preemphasis.

Context {F : Type} {A : Arith F}.

(** C8. On a non-empty signal the pre-emphasis filter returns a signal of
    the same length whose first sample is the input's first sample and
    whose sample [i], for [i >= 1], is [input[i] - 0.97 * input[i-1]]. *)
Theorem preemphasis_shape (audio_data : list F) :
  audio_data <> [] ->
  exists output,
    _apply_preemphasis audio_data coef_default = inr output /\
    List.length output = List.length audio_data /\
    nth_error output 0 = nth_error audio_data 0 /\
    forall i x prev,
      (1 <= i)%nat ->
      nth_error audio_data i = Some x ->
      nth_error audio_data (i - 1) = Some prev ->
      nth_error output i = Some (x - of_Q 0.97 * prev)%np.
Proof.
  destruct audio_data as [ | first rest]; [ congruence | intros _ ].
  eexists. split; [ reflexivity | ]. split; [ | split ].
  - cbn [List.length]. rewrite zip_with_length, removelast_length. cbn [List.length]. lia.
  - reflexivity.
  - intros [ | k] x prev Hi Hx Hprev; [ lia | ].
    cbn [nth_error]. cbn [nth_error] in Hx.
    replace (S k - 1)%nat with k in Hprev by lia.
    apply (zip_with_nth_error (fun x prev => x - coef_default * prev)%np);
      [ exact Hx | ].
    rewrite removelast_nth_error; [ exact Hprev | ].
    assert (Hk : (k < List.length rest)%nat)
      by (apply nth_error_Some; congruence).
    cbn [List.length]. lia.
Qed.

End Preemphasis.

(** The filter on the binary64 signal [1.0, 2.0, 4.0]. *)
Lemma preemphasis_shape_witness :
  exists output,
    _apply_preemphasis (A := float_arith) [1; 2; 4]%float coef_default = inr output /\
    List.length output = 3%nat /\
    nth_error output 0 = Some 1%float /\
    forall i x prev,
      (1 <= i)%nat ->
      nth_error [1; 2; 4]%float i = Some x ->
      nth_error [1; 2; 4]%float (i - 1) = Some prev ->
      nth_error output i = Some (x - of_Q 0.97 * prev)%np.
Proof.
  apply (preemphasis_shape (A := float_arith) [1; 2; 4]%float).
  discriminate.
Defined.

Section Processor.

Context {F : Type} {A : Arith F}.

Variable from_file : list Byte.byte -> Py.result AudioSegment.
Variable set_channels : AudioSegment -> Z -> Py.result AudioSegment.
Variable set_frame_rate : AudioSegment -> Z -> Py.result AudioSegment.
Variable format_2f : Q -> string.

Let process := process_audio (A := A) from_file set_channels set_frame_rate format_2f.

Lemma Qltb_lt (a b : Q) : Qltb a b = true <-> (a < b)%Q.
Proof.
  unfold Qltb. rewrite negb_true_iff. split.
  - intros H. apply Qnot_le_lt. intros Hle. apply Qle_bool_iff in Hle. congruence.
  - intros H. destruct (Qle_bool b a) eqn:E; [ | reflexivity ].
    apply Qle_bool_iff in E. exfalso. exact (Qlt_not_le _ _ H E).
Qed.

Lemma Qltb_ge (a b : Q) : Qltb a b = false <-> (b <= a)%Q.
Proof.
  unfold Qltb. rewrite negb_false_iff. apply Qle_bool_iff.
Qed.

Lemma process_decode_failure (audio_bytes : list Byte.byte) (e : Py.exn) :
  from_file audio_bytes = inl e ->
  process audio_bytes = inl (wrapped (Py.exn_msg e)).
Proof.
  intros H. unfold process, process_audio. rewrite H. reflexivity.
Qed.

Lemma process_too_short (audio_bytes : list Byte.byte) (audio : AudioSegment) :
  from_file audio_bytes = inr audio ->
  (len_ms audio # 1000 < 0.5)%Q ->
  process audio_bytes =
  inl (wrapped ("Audio too short: " ++ format_2f (len_ms audio # 1000) ++ "s (minimum: 0.5s)")).
Proof.
  intros H Hd. unfold process, process_audio. rewrite H. cbn [Py.bind].
  apply Qltb_lt in Hd. unfold min_duration. rewrite Hd. reflexivity.
Qed.

Lemma process_too_long (audio_bytes : list Byte.byte) (audio : AudioSegment) :
  from_file audio_bytes = inr audio ->
  (300 < len_ms audio # 1000)%Q ->
  process audio_bytes =
  inl (wrapped ("Audio too long: " ++ format_2f (len_ms audio # 1000) ++ "s (maximum: 300s)")).
Proof.
  intros H Hd. unfold process, process_audio. rewrite H. cbn [Py.bind].
  assert (Hs : Qltb (len_ms audio # 1000) min_duration = false).
  { apply Qltb_ge. unfold min_duration.
    apply Qlt_le_weak. eapply Qlt_trans; [ | exact Hd ]. reflexivity. }
  rewrite Hs. apply Qltb_lt in Hd. unfold max_duration. rewrite Hd. reflexivity.
Qed.

Lemma process_failure_wrapped (audio_bytes : list Byte.byte) (e : Py.exn) :
  process audio_bytes = inl e -> exists cause, e = wrapped cause.
Proof.
  unfold process, process_audio, Py.try_except.
  match goal with
  | |- match ?body with _ => _ end = _ -> _ => destruct body as [e0 | v]
  end.
  - intros [= <-]. exists (Py.exn_msg e0). reflexivity.
  - discriminate.
Qed.

Lemma process_success (audio_bytes : list Byte.byte) (audio_data : list F) (rate : Z) (d : Q) :
  process audio_bytes = inr (audio_data, rate, d) ->
  exists audio,
    from_file audio_bytes = inr audio /\ d = (len_ms audio # 1000)%Q /\
    rate = 16000%Z /\ (0.5 <= d)%Q /\ (d <= 300)%Q.
Proof.
  unfold process, process_audio, Py.try_except.
  destruct (from_file audio_bytes) as [e | audio]; cbn [Py.bind]; [ discriminate | ].
  destruct (Qltb (len_ms audio # 1000) min_duration) eqn:Hs; [ discriminate | ].
  destruct (Qltb max_duration (len_ms audio # 1000)) eqn:Hl; [ discriminate | ].
  repeat match goal with
         | |- match (Py.bind ?m _) with _ => _ end = _ -> _ =>
             destruct m as [? | ?]; cbn [Py.bind Py.ret]; cbv zeta;
             [ discriminate | ]
         end.
  intros [= <- <- <-].
  exists audio. apply Qltb_ge in Hs. apply Qltb_ge in Hl.
  repeat split; assumption.
Qed.

(** C5, as the code has it. A decoded clip shorter than 0.5 s or longer
    than 300 s makes [process_audio] fail, and the failure is a
    [ValueError] whose message starts "Failed to process audio file: Audio
    too short" (or "too long"); no clip is returned. Every clip that is
    returned has sample rate 16000 and a duration in [0.5, 300]. *)
Theorem duration_limits (audio_bytes : list Byte.byte) :
  (forall audio,
     from_file audio_bytes = inr audio ->
     ((len_ms audio # 1000 < 0.5)%Q ->
        process audio_bytes =
        inl (Py.Exn "ValueError"
               ("Failed to process audio file: Audio too short: "
                  ++ format_2f (len_ms audio # 1000) ++ "s (minimum: 0.5s)"))) /\
     ((300 < len_ms audio # 1000)%Q ->
        process audio_bytes =
        inl (Py.Exn "ValueError"
               ("Failed to process audio file: Audio too long: "
                  ++ format_2f (len_ms audio # 1000) ++ "s (maximum: 300s)"))))
  /\
  (forall audio_data rate d,
     process audio_bytes = inr (audio_data, rate, d) ->
     rate = 16000%Z /\ (0.5 <= d)%Q /\ (d <= 300)%Q).
Proof.
  split.
  - intros audio H. split; intros Hd.
    + rewrite (process_too_short _ _ H Hd). reflexivity.
    + rewrite (process_too_long _ _ H Hd). reflexivity.
  - intros audio_data rate d H.
    destruct (process_success _ _ _ _ H) as (audio & _ & _ & Hr & Hlo & Hhi).
    repeat split; assumption.
Qed.

(** C10. Whenever [process_audio] fails the exception is a [ValueError]
    whose message starts "Failed to process audio file: "; a decode
    failure and a duration violation both come out that way, so the type
    does not tell them apart. *)
Theorem every_failure_is_a_wrapped_ValueError (audio_bytes : list Byte.byte) :
  (forall e,
     process audio_bytes = inl e ->
     Py.exn_type e = "ValueError" /\
     exists cause, Py.exn_msg e = "Failed to process audio file: " ++ cause)
  /\
  (forall e0,
     from_file audio_bytes = inl e0 ->
     exists e, process audio_bytes = inl e /\ Py.exn_type e = "ValueError" /\
               Py.exn_msg e = "Failed to process audio file: " ++ Py.exn_msg e0)
  /\
  (forall audio,
     from_file audio_bytes = inr audio ->
     (len_ms audio # 1000 < 0.5)%Q \/ (300 < len_ms audio # 1000)%Q ->
     exists e cause, process audio_bytes = inl e /\ Py.exn_type e = "ValueError" /\
                     Py.exn_msg e = "Failed to process audio file: Audio too " ++ cause).
Proof.
  split; [ | split ].
  - intros e H. destruct (process_failure_wrapped _ _ H) as (cause & ->).
    split; [ reflexivity | ]. exists cause. reflexivity.
  - intros e0 H. eexists. split; [ apply process_decode_failure, H | ].
    split; reflexivity.
  - intros audio H [Hd | Hd].
    + eexists. eexists. split; [ apply (process_too_short _ _ H Hd) | ].
      split; reflexivity.
    + eexists. eexists. split; [ apply (process_too_long _ _ H Hd) | ].
      split; reflexivity.
Qed.

End Processor.

(** C5 as stated fails: the duration check does not raise a
    [DurationError]; the caller sees the same wrapped [ValueError] as for
    any other failure. *)
Lemma short_clip_raises_ValueError :
  process_audio (A := float_arith)
    (fun _ => inr short_clip) (fun a _ => inr a) (fun a _ => inr a) (fun _ => "0.20") [] =
  inl (Py.Exn "ValueError"
         "Failed to process audio file: Audio too short: 0.20s (minimum: 0.5s)")
  /\ "ValueError" <> "DurationError".
Proof. split; [ vm_compute; reflexivity | discriminate ]. Qed.

End AudioProcessorFacts.

(** * Properties of the feature extractor *)

Module ExtractorFacts.

Import VoiceDetector Cases.

(** [range(0, stop, 512)] holds the multiples of 512 below [stop]. *)
Lemma range_512 (stop : Z) (i : nat) :
  In i (Np.range stop 512) <-> exists k, i = (k * 512)%nat /\ (Z.of_nat (k * 512) < stop)%Z.
Proof.
  unfold Np.range. rewrite in_map_iff. split.
  - intros (k & <- & Hk). exists k. split; [ reflexivity | ].
    apply in_seq in Hk. destruct Hk as [_ Hk]. cbn [Nat.add] in Hk.
    assert (Hc : (Z.of_nat k < (stop + Z.of_nat 512 - 1) / Z.of_nat 512)%Z) by lia.
    change (Z.of_nat 512) with 512%Z in Hc.
    rewrite Nat2Z.inj_mul. change (Z.of_nat 512) with 512%Z.
    Z.div_mod_to_equations. lia.
  - intros (k & -> & Hk). exists k. split; [ reflexivity | ].
    apply in_seq. split; [ lia | ]. cbn [Nat.add].
    rewrite Nat2Z.inj_mul in Hk. change (Z.of_nat 512) with 512%Z in *.
    assert (Hc : (Z.of_nat k < (stop + 512 - 1) / 512)%Z)
      by (Z.div_mod_to_equations; lia).
    lia.
Qed.

Lemma slice_length {X} (a : list X) (i j : nat) :
  (j <= List.length a)%nat -> List.length (Np.slice a i j) = (j - i)%nat.
Proof.
  intros H. unfold Np.slice. rewrite length_firstn, length_skipn. lia.
Qed.

Section Frames.

Context {F : Type} {A : Np.Arith F}.

Lemma zcr_values_map (audio_data : list F) :
  map _calculate_zero_crossing_rate (frames audio_data 1024 512) =
  map (fun i => _calculate_zero_crossing_rate (Np.slice audio_data i (i + 1024)))
      (Np.range (Z.of_nat (List.length audio_data) - 1024) 512).
Proof. unfold frames. rewrite map_map. reflexivity. Qed.

(** What the loop of [_calculate_zcr_std] visits. [zcr_std] is the standard
    deviation of the zero-crossing rates of the frames visited, and 0.0 when
    none is. Every frame visited is a full window of 1024 samples that
    starts at a multiple of 512; every such window that ends before the
    last sample is visited; a signal of fewer than 1024 samples has none. *)
Lemma zcr_std_over_frames (audio_data : list F) :
  let offsets := Np.range (Z.of_nat (List.length audio_data) - 1024) 512 in
  _calculate_zcr_std audio_data =
    match offsets with
    | [] => Np.of_Q 0.0
    | _ => Np.std
             (map (fun i => _calculate_zero_crossing_rate (Np.slice audio_data i (i + 1024)))
                  offsets)
    end
  /\ (forall i, In i offsets ->
        (exists k, i = (k * 512)%nat) /\
        (i + 1024 <= List.length audio_data)%nat /\
        List.length (Np.slice audio_data i (i + 1024)) = 1024%nat)
  /\ (forall k, (k * 512 + 1024 < List.length audio_data)%nat -> In (k * 512)%nat offsets)
  /\ ((List.length audio_data < 1024)%nat -> _calculate_zcr_std audio_data = Np.of_Q 0.0).
Proof.
  intros offsets.
  assert (Hstd : _calculate_zcr_std audio_data =
                 match offsets with
                 | [] => Np.of_Q 0.0
                 | _ => Np.std
                          (map (fun i =>
                                  _calculate_zero_crossing_rate
                                    (Np.slice audio_data i (i + 1024))) offsets)
                 end).
  { unfold _calculate_zcr_std. rewrite zcr_values_map. fold offsets.
    destruct offsets; reflexivity. }
  split; [ exact Hstd | ]. split; [ | split ].
  - intros i Hi. apply range_512 in Hi. destruct Hi as (k & -> & Hk).
    assert (Hle : (k * 512 + 1024 <= List.length audio_data)%nat) by lia.
    split; [ exists k; reflexivity | ]. split; [ exact Hle | ].
    rewrite slice_length by exact Hle. lia.
  - intros k Hk. apply range_512. exists k. split; [ reflexivity | lia ].
  - intros Hshort. rewrite Hstd.
    destruct offsets as [ | i rest] eqn:E; [ reflexivity | ].
    assert (Hi : In i offsets) by (rewrite E; left; reflexivity).
    apply range_512 in Hi. destruct Hi as (k & _ & Hk). lia.
Qed.

Lemma filter_seq_prefix (p : nat -> bool) (m c : nat) :
  (c <= m)%nat ->
  (forall k, (k < m)%nat -> p k = (k <? c)%nat) ->
  filter p (seq 0 m) = seq 0 c.
Proof.
  intros Hc Hp.
  replace m with (c + (m - c))%nat in * by lia.
  rewrite seq_app, filter_app. cbn [Nat.add].
  assert (H1 : filter p (seq 0 c) = seq 0 c).
  { apply forallb_filter_id. apply forallb_forall. intros k Hk.
    apply in_seq in Hk. rewrite Hp by lia. apply Nat.ltb_lt. lia. }
  assert (H2 : filter p (seq c (m - c)) = []).
  { assert (Hall : forall l, (forall k, In k l -> p k = false) -> filter p l = []).
    { induction l as [ | x l IH]; intros H; [ reflexivity | ].
      cbn [filter]. rewrite (H x) by (left; reflexivity).
      apply IH. intros k Hk. apply H. right. exact Hk. }
    apply Hall. intros k Hk. apply in_seq in Hk.
    rewrite Hp by lia. apply Nat.ltb_ge. lia. }
  rewrite H1, H2. apply app_nil_r.
Qed.

Lemma filter_map {X Y} (p : Y -> bool) (g : X -> Y) (l : list X) :
  filter p (map g l) = map g (filter (fun x => p (g x)) l).
Proof.
  induction l as [ | x l IH]; [ reflexivity | ].
  cbn [map filter]. destruct (p (g x)); cbn [map]; rewrite IH; reflexivity.
Qed.

(** Unless the signal ends exactly on a frame boundary, the loop visits
    every full frame. *)
Lemma offsets_are_the_full_frames (n : nat) :
  (forall k, n <> (1024 + 512 * k)%nat) ->
  Np.range (Z.of_nat n - 1024) 512 = FramingSpec.full_frame_offsets n.
Proof.
  intros Hn. unfold Np.range, FramingSpec.full_frame_offsets.
  rewrite filter_map. f_equal. symmetry.
  change (Z.of_nat 512) with 512%Z.
  apply filter_seq_prefix.
  - assert (H : (Z.of_nat (n / 512) = Z.of_nat n / 512)%Z)
      by (rewrite Nat2Z.inj_div; reflexivity).
    Z.div_mod_to_equations. lia.
  - intros k Hk. specialize (Hn (k)).
    destruct (Nat.leb_spec (k * 512 + 1024) n) as [Hle | Hgt];
      symmetry; [ apply Nat.ltb_lt | apply Nat.ltb_ge ];
      Z.div_mod_to_equations; lia.
Qed.

(** C6, as the code has it. For a signal whose length is not of the form
    1024 + 512 k, [zcr_std] is the standard deviation of the zero-crossing
    rates of every full frame of 1024 samples at hop 512; and it is 0.0 for
    every signal of fewer than 1024 samples. *)
Theorem zcr_std_refines_framing (audio_data : list F) :
  (forall k, List.length audio_data <> (1024 + 512 * k)%nat) ->
  _calculate_zcr_std audio_data = FramingSpec.zcr_std_spec audio_data
  /\ ((List.length audio_data < 1024)%nat -> _calculate_zcr_std audio_data = Np.of_Q 0.0).
Proof.
  intros Hn.
  destruct (zcr_std_over_frames audio_data) as (Hstd & _ & _ & Hshort).
  split; [ | exact Hshort ].
  rewrite Hstd. unfold FramingSpec.zcr_std_spec.
  rewrite (offsets_are_the_full_frames _ Hn).
  destruct (FramingSpec.full_frame_offsets (List.length audio_data)); reflexivity.
Qed.

End Frames.

Section Totality.

Context {F : Type} {A : Np.Arith F}.
Variable lib : Np.SciLib F.

Lemma abs_fft_nonempty (audio_data : list F) :
  audio_data <> [] -> abs_fft lib audio_data = inr (Np.fft_abs lib audio_data).
Proof. destruct audio_data; [ congruence | reflexivity ]. Qed.

Lemma autocorrelate_nonempty (audio_data : list F) :
  audio_data <> [] ->
  autocorrelate audio_data = inr (Np.correlate_full audio_data audio_data).
Proof. destruct audio_data; [ congruence | reflexivity ]. Qed.

Lemma np_max_nonempty (a : list F) :
  a <> [] -> exists m, np_max a = inr m.
Proof. destruct a; [ congruence | intros _; eexists; reflexivity ]. Qed.

Lemma correlate_full_length (a v : list F) :
  List.length (Np.correlate_full a v) = (List.length a + List.length v - 1)%nat.
Proof. unfold Np.correlate_full. rewrite length_map, length_seq. reflexivity. Qed.

Lemma autocorr_half_nonempty (audio_data : list F) :
  audio_data <> [] ->
  let autocorr := Np.correlate_full audio_data audio_data in
  skipn (List.length autocorr / 2) autocorr <> [].
Proof.
  intros Hne autocorr Hnil.
  apply (f_equal (@List.length F)) in Hnil.
  rewrite length_skipn in Hnil. unfold autocorr in Hnil.
  rewrite correlate_full_length in Hnil.
  destruct audio_data as [ | x rest]; [ congruence | ].
  cbn [List.length] in Hnil.
  pose proof (Nat.Div0.div_lt_upper_bound
                (S (List.length rest) + S (List.length rest) - 1) 2
                (S (List.length rest))) as Hdiv.
  lia.
Qed.

Lemma spectral_flatness_succeeds (audio_data : list F) :
  audio_data <> [] -> Py.succeeds (_calculate_spectral_flatness lib audio_data).
Proof.
  intros H. unfold _calculate_spectral_flatness. rewrite (abs_fft_nonempty _ H).
  eexists. reflexivity.
Qed.

Lemma spectral_centroid_succeeds (audio_data : list F) (sample_rate : Z) :
  audio_data <> [] -> sample_rate <> 0%Z ->
  Py.succeeds (_calculate_spectral_centroid lib audio_data sample_rate).
Proof.
  intros H Hr. unfold _calculate_spectral_centroid. rewrite (abs_fft_nonempty _ H).
  cbn [Py.bind]. apply Z.eqb_neq in Hr. rewrite Hr.
  eexists. reflexivity.
Qed.

Lemma spectral_rolloff_succeeds (audio_data : list F) (sample_rate : Z) :
  audio_data <> [] -> Py.succeeds (_calculate_spectral_rolloff lib audio_data sample_rate).
Proof.
  intros H. unfold _calculate_spectral_rolloff. rewrite (abs_fft_nonempty _ H).
  cbn [Py.bind].
  match goal with |- Py.succeeds (match ?l with _ => _ end) => destruct l end;
    eexists; reflexivity.
Qed.

Lemma harmonic_ratio_succeeds (audio_data : list F) :
  audio_data <> [] -> Py.succeeds (_calculate_harmonic_ratio lib audio_data).
Proof.
  intros H. unfold _calculate_harmonic_ratio. rewrite (autocorrelate_nonempty _ H).
  cbn [Py.bind].
  destruct (List.length _ <? 2)%nat; [ eexists; reflexivity | ].
  destruct (0 <? List.length _)%nat; [ | eexists; reflexivity ].
  destruct (np_max_nonempty _ (autocorr_half_nonempty _ H)) as (m & ->).
  eexists. reflexivity.
Qed.

Lemma jitter_succeeds (audio_data : list F) (sample_rate : Z) :
  audio_data <> [] -> Py.succeeds (_calculate_jitter lib audio_data sample_rate).
Proof.
  intros H. unfold _calculate_jitter. rewrite (autocorrelate_nonempty _ H).
  cbn [Py.bind].
  destruct (np_max_nonempty _ (autocorr_half_nonempty _ H)) as (m & ->).
  cbn [Py.bind].
  destruct (1 <? List.length _)%nat; eexists; reflexivity.
Qed.

Lemma mfcc_variance_succeeds (audio_data : list F) (sample_rate : Z) :
  audio_data <> [] -> Py.succeeds (_calculate_mfcc_variance lib audio_data sample_rate).
Proof.
  intros H. unfold _calculate_mfcc_variance. rewrite (abs_fft_nonempty _ H).
  eexists. reflexivity.
Qed.

Lemma dynamic_range_succeeds (audio_data : list F) :
  audio_data <> [] -> Py.succeeds (_calculate_dynamic_range lib audio_data).
Proof.
  intros H. unfold _calculate_dynamic_range.
  assert (Hm : map Np.abs audio_data <> [])
    by (destruct audio_data; [ congruence | discriminate ]).
  destruct (np_max_nonempty _ Hm) as (m & ->). cbn [Py.bind].
  destruct (Np.gtb _ _); eexists; reflexivity.
Qed.

(** On a non-empty signal at a non-zero rate no step of the extractor
    raises, and the two moments are stored as the library returns them. *)
Lemma extract_features_stores_moments
    (audio_data : list F) (sample_rate : Z) (language : string) :
  audio_data <> [] -> sample_rate <> 0%Z ->
  exists features,
    _extract_features lib audio_data sample_rate language = inr features /\
    signal_kurtosis features = Np.kurtosis lib audio_data /\
    signal_skewness features = Np.skew lib audio_data.
Proof.
  intros H Hr. unfold _extract_features.
  destruct (spectral_flatness_succeeds _ H) as (v1 & ->).
  destruct (spectral_centroid_succeeds _ _ H Hr) as (v2 & ->).
  destruct (spectral_rolloff_succeeds _ sample_rate H) as (v3 & ->).
  destruct (harmonic_ratio_succeeds _ H) as (v4 & ->).
  destruct (jitter_succeeds _ sample_rate H) as (v5 & ->).
  destruct (mfcc_variance_succeeds _ sample_rate H) as (v6 & ->).
  destruct (dynamic_range_succeeds _ H) as (v7 & ->).
  cbn [Py.bind Py.ret]. eexists. split; [ reflexivity | ]. split; reflexivity.
Qed.

End Totality.

#[local] Existing Instance Np.float_arith.

(** C2 fails on a silent clip: the extractor returns a feature vector whose
    kurtosis and skewness are NaN. The eleven features computed in the
    repository are guarded; the two moments are stored unguarded, and on a
    constant signal the standardized moments are 0/0. *)
Theorem silent_clip_moments_are_nan (lib : Np.SciLib float) (language : string) :
  exists features,
    _extract_features (ScipyStats.with_moments lib) silence 16000 language = inr features /\
    is_finite (signal_kurtosis features) = false /\
    is_finite (signal_skewness features) = false /\
    List.length (items features) = 13%nat.
Proof.
  destruct (extract_features_stores_moments (ScipyStats.with_moments lib)
              silence 16000 language) as (features & Hf & Hk & Hs).
  - discriminate.
  - discriminate.
  - exists features. split; [ exact Hf | ].
    rewrite Hk, Hs. cbn [Np.kurtosis Np.skew ScipyStats.with_moments].
    split; [ vm_compute; reflexivity | ].
    split; [ vm_compute; reflexivity | reflexivity ].
Qed.

Lemma zcr_std_refines_framing_witness :
  _calculate_zcr_std (A := Np.float_arith) constant_1100 = FramingSpec.zcr_std_spec constant_1100
  /\ ((List.length constant_1100 < 1024)%nat ->
      _calculate_zcr_std (A := Np.float_arith) constant_1100 = Np.of_Q 0.0).
Proof.
  apply (zcr_std_refines_framing (A := Np.float_arith) constant_1100).
  intros k. change (List.length constant_1100) with 1100%nat. lia.
Defined.

(** C6 as stated fails twice. A constant signal of 1100 samples holds a
    full frame and its [zcr_std] is 0.0, the deviation of a single rate. A
    signal of 1536 samples holds two full frames with different rates, the
    loop stops before the second, and the result is 0.0 instead of their
    deviation. *)
Lemma zcr_std_misses_the_claim :
  ((1024 <= List.length constant_1100)%nat /\
   _calculate_zcr_std (A := Np.float_arith) constant_1100 = 0%float)
  /\
  (FramingSpec.full_frame_offsets (List.length burst_1536) = [0; 512]%nat /\
   Np.range (Z.of_nat (List.length burst_1536) - 1024) 512 = [0%nat] /\
   _calculate_zcr_std (A := Np.float_arith) burst_1536 = 0%float /\
   FramingSpec.zcr_std_spec (A := Np.float_arith) burst_1536 = 0.24951171875%float).
Proof.
  split; [ split | split; [ | split; [ | split ] ] ].
  - vm_compute. lia.
  - vm_compute. reflexivity.
  - vm_compute. reflexivity.
  - vm_compute. reflexivity.
  - vm_compute. reflexivity.
  - vm_compute. reflexivity.
Qed.

End ExtractorFacts.

(** * The spectral flatness in exact arithmetic *)

Module FlatnessFacts.

Import Reals Qreals Lra.
Import VoiceDetector Exact.

#[local] Open Scope R_scope.

Lemma finite_values_map_Some (x : list R) : finite_values (map Some x) = Some x.
Proof.
  induction x as [ | v x IH]; [ reflexivity | ].
  cbn [map finite_values]. rewrite IH. reflexivity.
Qed.

Lemma dft_abs_finite (x : list R) : dft_abs (map Some x) = map Some (dft_abs_R x).
Proof. unfold dft_abs. rewrite finite_values_map_Some. reflexivity. Qed.

Lemma dft_abs_R_length (x : list R) : List.length (dft_abs_R x) = List.length x.
Proof. unfold dft_abs_R. rewrite length_map, length_seq. reflexivity. Qed.

Lemma dft_abs_R_nonneg (x : list R) : Forall (fun s => 0 <= s) (dft_abs_R x).
Proof.
  unfold dft_abs_R. apply Forall_forall. intros s Hs.
  apply in_map_iff in Hs. destruct Hs as (k & <- & _). apply sqrt_pos.
Qed.

Lemma sum_from (l : list R) (a : R) :
  fold_left (Np.add (F := option R)) (map Some l) (Some a) = Some (a + rsum l).
Proof.
  revert a. induction l as [ | x l IH]; intros a; cbn [map fold_left rsum fold_right].
  - f_equal. lra.
  - change (Np.add (Some a) (Some x)) with (Some (a + x)).
    rewrite IH. f_equal. unfold rsum. lra.
Qed.

Lemma sum_finite (l : list R) : Np.sum (map Some l) = Some (rsum l).
Proof.
  unfold Np.sum, Np.zero. change (Np.of_Z 0) with (Some 0).
  rewrite sum_from. f_equal. lra.
Qed.

Lemma mean_finite (l : list R) :
  l <> [] -> Np.mean (map Some l) = Some (rsum l / INR (List.length l)).
Proof.
  intros Hne. unfold Np.mean, Np.len. rewrite sum_finite, length_map.
  change (Np.of_Z (Z.of_nat (List.length l))) with (Some (IZR (Z.of_nat (List.length l)))).
  rewrite <- INR_IZR_INZ. cbn [Np.div arith]. unfold xdiv.
  destruct (Req_dec_T (INR (List.length l)) 0) as [E | _]; [ | reflexivity ].
  exfalso. destruct l; [ congruence | ].
  apply (not_0_INR (List.length (r :: l))); [ discriminate | exact E ].
Qed.

Lemma mean_empty : Np.mean (F := option R) [] = None.
Proof.
  unfold Np.mean, Np.len, Np.sum. cbn [fold_left List.length Np.div arith Z.of_nat].
  unfold Np.zero. cbn [Np.of_Z arith xdiv].
  destruct (Req_dec_T 0 0) as [_ | H]; [ reflexivity | congruence ].
Qed.

Lemma log_shifted (eps : R) (l : list R) :
  0 < eps -> Forall (fun s => 0 <= s) l ->
  map (fun s => xlog (Np.add s (Some eps))) (map Some l) =
  map Some (map (fun s => ln (s + eps)) l).
Proof.
  intros He Hl. induction Hl as [ | s l Hs Hl IH]; [ reflexivity | ].
  cbn [map]. rewrite IH. f_equal.
  cbn [Np.add arith lift2 xlog].
  destruct (Rlt_dec 0 (s + eps)) as [_ | H]; [ reflexivity | ].
  exfalso. apply H. lra.
Qed.

(** The logarithm lies below its tangent at 1. *)
Lemma ln_le_minus_one (t : R) : 0 < t -> ln t <= t - 1.
Proof.
  intros Ht. pose proof (exp_ineq1_le (t - 1)) as H.
  replace (1 + (t - 1)) with t in H by lra.
  destruct H as [H | H].
  - left. rewrite <- (ln_exp (t - 1)). apply ln_increasing; assumption.
  - right. rewrite H at 1. apply ln_exp.
Qed.

Lemma rsum_pos (l : list R) : l <> [] -> Forall (fun y => 0 < y) l -> 0 < rsum l.
Proof.
  intros Hne Hl. induction Hl as [ | y l Hy Hl IH]; [ congruence | ].
  cbn [rsum fold_right]. destruct l as [ | z l].
  - cbn. lra.
  - assert (0 < rsum (z :: l)) by (apply IH; discriminate).
    unfold rsum in *. lra.
Qed.

(** Each logarithm against the logarithm of any positive reference [m]. *)
Lemma rsum_ln_bound (m : R) (l : list R) :
  0 < m -> Forall (fun y => 0 < y) l ->
  rsum (map ln l) <= INR (List.length l) * ln m + rsum l / m - INR (List.length l).
Proof.
  intros Hm Hl. induction Hl as [ | y l Hy Hl IH].
  - cbn. lra.
  - cbn [map rsum fold_right]. change (fold_right Rplus 0) with rsum.
    rewrite length_cons, S_INR.
    assert (Hy' : ln y <= ln m + y / m - 1).
    { assert (Ht : 0 < y / m) by (apply Rdiv_lt_0_compat; assumption).
      pose proof (ln_le_minus_one _ Ht) as H.
      unfold Rdiv in H. rewrite ln_mult in H by (try assumption; apply Rinv_0_lt_compat, Hm).
      rewrite ln_Rinv in H by assumption. unfold Rdiv. lra. }
    unfold Rdiv in *. lra.
Qed.

(** The geometric mean of positive numbers is at most their arithmetic mean. *)
Lemma geometric_le_arithmetic (l : list R) :
  l <> [] -> Forall (fun y => 0 < y) l ->
  exp (rsum (map ln l) / INR (List.length l)) <= rsum l / INR (List.length l).
Proof.
  intros Hne Hl.
  set (n := INR (List.length l)).
  assert (Hn : 0 < n).
  { unfold n. destruct l; [ congruence | ]. apply lt_0_INR. cbn. lia. }
  set (m := rsum l / n).
  assert (Hm : 0 < m) by (apply Rdiv_lt_0_compat; [ apply rsum_pos | ]; assumption).
  pose proof (rsum_ln_bound m l Hm Hl) as H. fold n in H.
  assert (Hc : rsum l / m = n).
  { unfold m. field. split; [ lra | ].
    apply Rgt_not_eq. apply rsum_pos; assumption. }
  rewrite Hc in H.
  assert (Hle : rsum (map ln l) / n <= ln m).
  { apply (Rmult_le_reg_l n); [ exact Hn | ].
    replace (n * (rsum (map ln l) / n)) with (rsum (map ln l)) by (field; lra).
    lra. }
  apply Rle_trans with (exp (ln m)); [ | rewrite (exp_ln m Hm); apply Rle_refl ].
  destruct Hle as [Hlt | Heq].
  - left. apply exp_increasing. exact Hlt.
  - right. rewrite Heq. reflexivity.
Qed.

Lemma rsum_shift (eps : R) (l : list R) :
  rsum (map (fun s => s + eps) l) = rsum l + INR (List.length l) * eps.
Proof.
  induction l as [ | s l IH].
  - cbn. lra.
  - cbn [map rsum fold_right]. change (fold_right Rplus 0) with rsum.
    rewrite IH, length_cons, S_INR. lra.
Qed.

Lemma eps_value : eps (F := option R) = Some (Q2R 1e-10) /\ 0 < Q2R 1e-10.
Proof.
  split; [ reflexivity | ].
  rewrite <- RMicromega.Q2R_0. apply Qlt_Rlt. reflexivity.
Qed.

(** The flatness of a non-empty half spectrum of non-negative magnitudes. *)
Lemma flatness_of_spectrum (lib : Np.SciLib (option R)) (e : R) (half : list R) :
  0 < e -> half <> [] -> Forall (fun s => 0 <= s) half ->
  exists r,
    Np.div
      (Np.exp (transforms lib)
         (Np.mean (map (fun s => Np.log (transforms lib) (Np.add s (Some e))) (map Some half))))
      (Np.add (Np.mean (map Some half)) (Some e)) = Some r
    /\ 0 < r <= 1.
Proof.
  intros He Hne Hpos.
  cbn [Np.exp Np.log transforms].
  rewrite (log_shifted e half He Hpos).
  assert (Hne' : map (fun s => ln (s + e)) half <> [])
    by (destruct half; [ congruence | discriminate ]).
  rewrite (mean_finite _ Hne'), (mean_finite _ Hne), length_map.
  set (n := INR (List.length half)).
  assert (Hn : 0 < n).
  { unfold n. destruct half; [ congruence | ]. apply lt_0_INR. cbn. lia. }
  assert (Hs : 0 <= rsum half).
  { clear -Hpos. induction Hpos as [ | s l Hs Hl IH]; cbn; [ lra | ].
    unfold rsum in IH. lra. }
  assert (Ham : 0 < rsum half / n + e).
  { assert (0 <= rsum half / n) by (apply Rle_mult_inv_pos; assumption). lra. }
  cbn [xexp option_map Np.add Np.div arith lift2 xdiv].
  destruct (Req_dec_T (rsum half / n + e) 0) as [E | _]; [ lra | ].
  eexists. split; [ reflexivity | ].
  set (ys := map (fun s => s + e) half).
  assert (Hys : Forall (fun y => 0 < y) ys).
  { unfold ys. apply Forall_forall. intros y Hy.
    apply in_map_iff in Hy. destruct Hy as (s0 & <- & Hin).
    rewrite Forall_forall in Hpos. specialize (Hpos _ Hin). lra. }
  assert (Hyne : ys <> []) by (unfold ys; destruct half; [ congruence | discriminate ]).
  pose proof (geometric_le_arithmetic ys Hyne Hys) as Hgm.
  unfold ys in Hgm. rewrite map_map, length_map, rsum_shift in Hgm. fold n in Hgm.
  replace ((rsum half + n * e) / n) with (rsum half / n + e) in Hgm by (field; lra).
  set (d := rsum half / n + e) in *.
  set (g := exp (rsum (map (fun s => ln (s + e)) half) / n)) in *.
  split.
  - apply Rdiv_lt_0_compat; [ apply exp_pos | exact Ham ].
  - apply (Rmult_le_reg_r d); [ exact Ham | ].
    replace (g / d * d) with g by (field; lra).
    lra.
Qed.

(** C9, as the code has it. In exact arithmetic the spectral flatness of a
    finite signal of at least two samples is a number in (0, 1]: the
    geometric mean of the shifted magnitudes over their arithmetic mean. *)
Theorem spectral_flatness_in_unit_interval
    (lib : Np.SciLib (option R)) (audio_data : list R) :
  (2 <= List.length audio_data)%nat ->
  exists flatness,
    _calculate_spectral_flatness (transforms lib) (map Some audio_data) = inr (Some flatness)
    /\ 0 < flatness <= 1.
Proof.
  intros Hlen.
  unfold _calculate_spectral_flatness.
  rewrite ExtractorFacts.abs_fft_nonempty
    by (destruct audio_data; [ cbn in Hlen; lia | discriminate ]).
  cbn [Py.bind Py.ret].
  change (Np.fft_abs (transforms lib) (map Some audio_data)) with (dft_abs (map Some audio_data)).
  rewrite dft_abs_finite, length_map, dft_abs_R_length, firstn_map.
  destruct eps_value as [-> He].
  set (half := firstn (List.length audio_data / 2) (dft_abs_R audio_data)).
  assert (Hhalf : half <> []).
  { intros Hnil. apply (f_equal (@List.length R)) in Hnil.
    unfold half in Hnil. rewrite length_firstn, dft_abs_R_length in Hnil.
    cbn [List.length] in Hnil.
    assert (1 <= List.length audio_data / 2)%nat
      by (apply Nat.div_le_lower_bound; lia).
    lia. }
  assert (Hpos : Forall (fun s => 0 <= s) half).
  { unfold half. apply Forall_forall. intros s Hs.
    pose proof (dft_abs_R_nonneg audio_data) as Hall.
    rewrite Forall_forall in Hall. apply Hall.
    rewrite <- (firstn_skipn (List.length audio_data / 2) (dft_abs_R audio_data)).
    apply in_or_app. left. exact Hs. }
  destruct (flatness_of_spectrum lib _ half He Hhalf Hpos) as (r & Hr & Hb).
  exists r. split; [ | exact Hb ].
  unfold Py.ret. f_equal. exact Hr.
Qed.

(** The flatness of the two-sample signal [1, 2]. *)
Lemma spectral_flatness_witness :
  exists flatness,
    _calculate_spectral_flatness (transforms blank) (map Some [1; 2]) = inr (Some flatness)
    /\ 0 < flatness <= 1.
Proof.
  apply (spectral_flatness_in_unit_interval blank [1; 2]).
  cbn [List.length]. lia.
Defined.

(** C9 as stated fails on a signal of one sample: its positive-frequency
    half is empty, both means are 0/0, and the flatness is not a number. *)
Lemma one_sample_flatness_is_not_a_number :
  _calculate_spectral_flatness (transforms blank) [Some 1] = inr None.
Proof.
  unfold _calculate_spectral_flatness.
  rewrite ExtractorFacts.abs_fft_nonempty by discriminate.
  cbn [Py.bind Py.ret].
  change (Np.fft_abs (transforms blank) [Some 1]) with (dft_abs (map Some [1])).
  rewrite dft_abs_finite, length_map, dft_abs_R_length.
  cbn [List.length Nat.div Nat.divmod fst firstn map].
  rewrite mean_empty. reflexivity.
Qed.

End FlatnessFacts.

(** * Further properties of the scorer, the classification and the explanation *)

Module ScorerMore.

Import VoiceDetector ScorerView.

#[local] Open Scope float_scope.

(** A test on a boolean that holds on both values holds on every value. *)
Definition both (f : bool -> bool) : bool := f true && f false.

Lemma both_spec (f : bool -> bool) : both f = true -> forall b, f b = true.
Proof.
  unfold both. intros H b. apply andb_prop in H. destruct H as [Ht Hf].
  destruct b; assumption.
Qed.

(** The four weights [lang_weight] can take. *)
Definition weights : list float := [1.1; 1.0; 1.05; 1.08].

Lemma lang_weight_in (language : string) : In (lang_weight language) weights.
Proof.
  destruct (ScorerFacts.lang_weight_cases language) as [H | [H | [H | H]]];
    rewrite H; cbn; auto.
Qed.

(** The probability lies in [0, 1] for every outcome of the comparisons. *)
Definition unit_check (w : float) : bool :=
  both (fun c1 => both (fun c2 => both (fun c3 => both (fun c4 =>
  both (fun c5 => both (fun c6 => both (fun c7 =>
    (0 <=? vote c1 c2 c3 c4 c5 c6 c7 w) && (vote c1 c2 c3 c4 c5 c6 c7 w <=? 1)))))))).

Lemma unit_check_holds : forallb unit_check weights = true.
Proof. vm_compute. reflexivity. Qed.

(** X1. The scorer returns a probability in [0, 1] whatever the features
    (NaN included) and whatever the language string. *)
Theorem probability_in_unit_interval (features : FeatureVector float) (language : string) :
  (0 <=? _calculate_ai_probability features language) = true /\
  (_calculate_ai_probability features language <=? 1) = true.
Proof.
  rewrite ScorerFacts.probability_vote.
  pose proof (proj1 (forallb_forall _ _) unit_check_holds _ (lang_weight_in language)) as H.
  unfold unit_check in H.
  set (c1 := Py.gtb (spectral_flatness features) 0.15).
  set (c2 := Py.gtb (harmonic_ratio features) 0.75).
  set (c3 := zcr_std features <? 0.02).
  set (c4 := jitter features <? 0.005).
  set (c5 := shimmer features <? 0.05).
  set (c6 := mfcc_variance features <? 2.5).
  set (c7 := energy_entropy features <? 3.5).
  apply both_spec with (b := c1) in H. apply both_spec with (b := c2) in H.
  apply both_spec with (b := c3) in H. apply both_spec with (b := c4) in H.
  apply both_spec with (b := c5) in H. apply both_spec with (b := c6) in H.
  apply both_spec with (b := c7) in H.
  apply andb_prop in H. exact H.
Qed.

(** Satisfying more rules never lowers the vote. *)
Definition monotone_check (w : float) : bool :=
  both (fun c1 => both (fun c2 => both (fun c3 => both (fun c4 =>
  both (fun c5 => both (fun c6 => both (fun c7 =>
  both (fun d1 => both (fun d2 => both (fun d3 => both (fun d4 =>
  both (fun d5 => both (fun d6 => both (fun d7 =>
    implb (implb c1 d1 && implb c2 d2 && implb c3 d3 && implb c4 d4
             && implb c5 d5 && implb c6 d6 && implb c7 d7)
          (vote c1 c2 c3 c4 c5 c6 c7 w <=? vote d1 d2 d3 d4 d5 d6 d7 w))))))))))))))).

Lemma monotone_check_holds : forallb monotone_check weights = true.
Proof. vm_compute. reflexivity. Qed.

(** X2. The score is monotone in the rules: if every comparison that holds
    for one feature vector also holds for another, the second vector's
    probability is at least the first's, in any language. *)
Theorem probability_monotone
    (features features' : FeatureVector float) (language : string) :
  Forall2 (fun c d => implb c d = true) (comparisons features) (comparisons features') ->
  (_calculate_ai_probability features language
     <=? _calculate_ai_probability features' language) = true.
Proof.
  intros Hle. rewrite !ScorerFacts.probability_vote.
  unfold comparisons in Hle.
  cbn [thresholds spectral_flatness_threshold harmonic_ratio_threshold
       zero_crossing_rate_std jitter_threshold shimmer_threshold
       mel_cepstral_distortion] in Hle.
  repeat match goal with
         | H : Forall2 _ (_ :: _) (_ :: _) |- _ =>
             let H1 := fresh "Hc" in
             apply Forall2_cons_iff in H; destruct H as [H1 H]
         end.
  pose proof (proj1 (forallb_forall _ _) monotone_check_holds _ (lang_weight_in language)) as H.
  unfold monotone_check in H.
  repeat match goal with
         | |- context [vote ?c1 ?c2 ?c3 ?c4 ?c5 ?c6 ?c7 _ <=? vote ?d1 ?d2 ?d3 ?d4 ?d5 ?d6 ?d7 _] =>
             apply both_spec with (b := c1) in H; apply both_spec with (b := c2) in H;
             apply both_spec with (b := c3) in H; apply both_spec with (b := c4) in H;
             apply both_spec with (b := c5) in H; apply both_spec with (b := c6) in H;
             apply both_spec with (b := c7) in H;
             apply both_spec with (b := d1) in H; apply both_spec with (b := d2) in H;
             apply both_spec with (b := d3) in H; apply both_spec with (b := d4) in H;
             apply both_spec with (b := d5) in H; apply both_spec with (b := d6) in H;
             apply both_spec with (b := d7) in H
         end.
  rewrite Hc, Hc0, Hc1, Hc2, Hc3, Hc4, Hc5 in H. exact H.
Qed.

(** Two vectors, the second on the AI side of two more thresholds. *)
Lemma probability_monotone_witness :
  (_calculate_ai_probability (mkFeatures 0.2 0 0 0 0 1 1 1 10 10 0 0 0) "hindi"
     <=? _calculate_ai_probability (mkFeatures 0.2 0 0 0.8 0 0.01 1 1 10 10 0 0 0) "hindi")
  = true.
Proof.
  apply (probability_monotone
           (mkFeatures 0.2 0 0 0 0 1 1 1 10 10 0 0 0)
           (mkFeatures 0.2 0 0 0.8 0 0.01 1 1 10 10 0 0 0) "hindi").
  vm_compute. repeat constructor.
Defined.

(** With none of the five indicator comparisons satisfied the vote stays at
    or below one half. *)
Definition quiet_check (w : float) : bool :=
  both (fun c6 => both (fun c7 =>
    negb (Py.gtb (vote false false false false false c6 c7 w) 0.5))).

Lemma quiet_check_holds : forallb quiet_check weights = true.
Proof. vm_compute. reflexivity. Qed.

Lemma labels_nil (tests : list (bool * string)) :
  labels tests = [] -> forall b l, In (b, l) tests -> b = false.
Proof.
  intros H b l Hin. destruct b; [ | reflexivity ].
  apply ScorerFacts.In_labels in Hin. rewrite H in Hin. destruct Hin.
Qed.

(** X3. A clip classified [ai_generated] always comes with at least one AI
    indicator: the two rules that have no indicator (MFCC variance, energy
    entropy) cannot carry the probability above 0.5 on their own. *)
Theorem ai_classification_has_an_indicator
    (features : FeatureVector float) (language : string) (include_features : bool) :
  classification (detect_features features language include_features) = "ai_generated" ->
  _get_ai_indicators features <> [].
Proof.
  rewrite ScorerFacts.classification_of_detect. unfold classify.
  destruct (Py.gtb (_calculate_ai_probability features language) 0.5) eqn:Hp;
    [ intros _ | discriminate ].
  intros Hnil. rewrite ScorerFacts.ai_indicators_labels in Hnil.
  pose proof (labels_nil _ Hnil) as Hall.
  rewrite ScorerFacts.probability_vote in Hp.
  assert (H1 : Py.gtb (spectral_flatness features) 0.15 = false)
    by (apply (Hall _ "High spectral uniformity"); cbn; auto 10).
  assert (H2 : Py.gtb (harmonic_ratio features) 0.75 = false)
    by (apply (Hall _ "Strong harmonic structure"); cbn; auto 10).
  assert (H3 : (zcr_std features <? 0.02) = false)
    by (apply (Hall _ "Consistent zero-crossing rate"); cbn; auto 10).
  assert (H4 : (jitter features <? 0.005) = false)
    by (apply (Hall _ "Low pitch jitter"); cbn; auto 10).
  assert (H5 : (shimmer features <? 0.05) = false)
    by (apply (Hall _ "Low amplitude shimmer"); cbn; auto 10).
  rewrite H1, H2, H3, H4, H5 in Hp.
  pose proof (proj1 (forallb_forall _ _) quiet_check_holds _ (lang_weight_in language)) as H.
  unfold quiet_check in H.
  apply both_spec with (b := (mfcc_variance features <? 2.5)) in H.
  apply both_spec with (b := (energy_entropy features <? 3.5)) in H.
  rewrite Hp in H. discriminate H.
Qed.

(** A vector on the AI side of every threshold, in English. *)
Lemma ai_classification_witness :
  _get_ai_indicators (mkFeatures 0.2 0 0 0.8 0 0.01 0.001 0.01 1 1 0 0 0) <> [].
Proof.
  apply (ai_classification_has_an_indicator
           (mkFeatures 0.2 0 0 0.8 0 0.01 0.001 0.01 1 1 0 0 0) "english" false).
  vm_compute. reflexivity.
Defined.

(** The reasons the explanation can draw on, in the order it tests them. *)
Definition reason_tests (features : FeatureVector float) : list (bool * string) :=
  [ (Py.gtb (spectral_flatness features) 0.15, "uniform spectral distribution");
    (jitter features <? 0.005, "minimal pitch variation");
    (shimmer features <? 0.05, "consistent amplitude");
    (zcr_std features <? 0.02, "stable zero-crossing rate");
    (Py.gtb (harmonic_ratio features) 0.75, "high harmonic content") ].

(** X4. The explanation agrees with the result it accompanies. It names
    "AI-generated" and closes on the synthetic-voice sentence exactly when
    the classification is [ai_generated]; the percentage is the unrounded
    confidence to one decimal; it lists the first three satisfied reasons in
    test order, or the two generic phrases when none is satisfied, so
    between one and three phrases. *)
Theorem explanation_agrees_with_classification
    (features : FeatureVector float) (language : string) (include_features : bool) :
  let p := _calculate_ai_probability features language in
  let r := detect_features features language include_features in
  let ai := String.eqb (classification r) "ai_generated" in
  let reasons :=
    match labels (reason_tests features) with
    | [] => ["natural prosodic variation"; "organic spectral characteristics"]
    | held => firstn 3 held
    end in
  explanation r =
    (("The audio sample is classified as "
        ++ (if ai then "AI-generated" else "human-generated") ++ " with "
        ++ Py.format_pct 1 (raw_confidence p) ++ " confidence. "
        ++ "Analysis of the " ++ language ++ " speech revealed: "
        ++ Py.join ", " reasons ++ ". ")
       ++ (if ai
           then "These patterns are typical of synthetic voice generation systems."
           else "These characteristics are consistent with natural human speech production."))%string
  /\ (1 <= List.length reasons <= 3)%nat.
Proof.
  intros p r ai reasons. unfold ai, r, reasons.
  rewrite ScorerFacts.classification_of_detect.
  cbn [explanation detect_features]. fold p.
  unfold _generate_explanation, raw_confidence, classify, reason_tests, labels.
  cbn [thresholds spectral_flatness_threshold harmonic_ratio_threshold
       zero_crossing_rate_std jitter_threshold shimmer_threshold].
  fold p.
  destruct (Py.gtb p 0.5);
    destruct (Py.gtb (spectral_flatness features) 0.15), (jitter features <? 0.005),
      (shimmer features <? 0.05), (zcr_std features <? 0.02),
      (Py.gtb (harmonic_ratio features) 0.75);
    (split; [ reflexivity | cbn; lia ]).
Qed.

(** Comparison of binary64 values is antisymmetric. *)
Lemma SFcompare_antisym (x y : spec_float) :
  SFcompare y x = option_map CompOpp (SFcompare x y).
Proof.
  destruct x as [sx | sx | | sx mx ex], y as [sy | sy | | sy my ey];
    try destruct sx; try destruct sy; try reflexivity;
    cbn [SFcompare option_map];
    rewrite (Z.compare_antisym ex ey);
    destruct (ex ?= ey)%Z; cbn [CompOpp]; try reflexivity;
    rewrite ?Pos.compare_cont_antisym; reflexivity.
Qed.

Lemma ltb_asym (x y : float) : (x <? y) = true -> (y <? x) = false.
Proof.
  rewrite !ltb_spec. unfold SFltb. rewrite (SFcompare_antisym (Prim2SF x) (Prim2SF y)).
  destruct (SFcompare (Prim2SF x) (Prim2SF y)) as [[ | | ] | ]; cbn; congruence.
Qed.

(** X5. The two indicator lists never contradict each other on a feature:
    "Low pitch jitter" and "Natural pitch variation" are never both
    listed, nor are the shimmer pair, nor the zero-crossing pair. *)
Theorem indicators_never_contradict (features : FeatureVector float) :
  let ai := _get_ai_indicators features in
  let human := _get_human_indicators features in
  ~ (In "Low pitch jitter" ai /\ In "Natural pitch variation" human) /\
  ~ (In "Low amplitude shimmer" ai /\ In "Natural amplitude variation" human) /\
  ~ (In "Consistent zero-crossing rate" ai /\ In "Variable articulation" human).
Proof.
  intros ai human. unfold ai, human.
  rewrite ScorerFacts.ai_indicators_labels, ScorerFacts.human_indicators_labels.
  unfold Py.gtb.
  repeat split; intros [Ha Hh];
    apply ScorerFacts.In_labels in Ha; apply ScorerFacts.In_labels in Hh;
    cbn [In] in Ha, Hh;
    repeat match goal with
           | H : _ \/ _ |- _ => destruct H
           | H : False |- _ => destruct H
           | H : (_, _) = (_, _) |- _ => inversion H; clear H
           end;
    match goal with
    | H1 : (?a <? ?b) = true, H2 : (?b <? ?a) = true |- _ =>
        rewrite (ltb_asym _ _ H1) in H2; discriminate H2
    end.
Qed.

End ScorerMore.

(** * Further properties of the feature extractor and of [detect] *)

Module ExtractorMore.

Import VoiceDetector.

Lemma range_length (stop : Z) :
  List.length (Np.range stop 512) = Z.to_nat ((stop + 511) / 512).
Proof.
  unfold Np.range. rewrite length_map, length_seq.
  change (Z.of_nat 512) with 512%Z. f_equal. f_equal. lia.
Qed.

Lemma frames_length {F : Type} (audio_data : list F) :
  List.length (frames audio_data 1024 512) =
  Z.to_nat ((Z.of_nat (List.length audio_data) - 1024 + 511) / 512).
Proof. unfold frames. rewrite length_map. apply range_length. Qed.

Lemma frames_nth {F : Type} (audio_data : list F) (j : nat) :
  (j < List.length (frames audio_data 1024 512))%nat ->
  nth j (frames audio_data 1024 512) [] =
  Np.slice audio_data (j * 512) (j * 512 + 1024).
Proof.
  intros Hj. rewrite frames_length in Hj. unfold frames, Np.range.
  change (Z.of_nat 1024) with 1024%Z. change (Z.of_nat 512) with 512%Z.
  replace (Z.of_nat (List.length audio_data) - 1024 + 512 - 1)%Z
    with (Z.of_nat (List.length audio_data) - 1024 + 511)%Z by lia.
  rewrite map_map.
  set (c := Z.to_nat ((Z.of_nat (List.length audio_data) - 1024 + 511) / 512)) in *.
  rewrite (nth_indep _ [] (Np.slice audio_data (0 * 512) (0 * 512 + 1024)))
    by (rewrite length_map, length_seq; exact Hj).
  rewrite (map_nth (fun k => Np.slice audio_data (k * 512) (k * 512 + 1024)) (seq 0 c) 0%nat j).
  rewrite seq_nth by exact Hj. reflexivity.
Qed.

(** X6. The framing shared by [zcr_std], [shimmer] and [energy_entropy]: a
    signal of at most 1024 samples has no frame and a longer one has
    [(len - 1025) / 512 + 1]; every frame holds exactly 1024 samples; and
    each frame shares its last 512 samples with the first 512 of the next. *)
Theorem frames_shape {F : Type} (audio_data : list F) :
  let fs := frames audio_data 1024 512 in
  let n := List.length audio_data in
  List.length fs = (if (n <=? 1024)%nat then 0 else (n - 1025) / 512 + 1)%nat
  /\ (forall j, (j < List.length fs)%nat -> List.length (nth j fs []) = 1024%nat)
  /\ (forall j, (S j < List.length fs)%nat ->
        skipn 512 (nth j fs []) = firstn 512 (nth (S j) fs [])).
Proof.
  intros fs n. unfold fs.
  assert (Hlen : List.length (frames audio_data 1024 512) =
                 (if (n <=? 1024)%nat then 0 else (n - 1025) / 512 + 1)%nat).
  { rewrite frames_length. fold n.
    destruct (Nat.leb_spec n 1024) as [Hle | Hgt].
    - assert (H : ((Z.of_nat n - 1024 + 511) / 512 <= 0)%Z)
        by (Z.div_mod_to_equations; lia).
      lia.
    - assert (H : (Z.of_nat ((n - 1025) / 512) = (Z.of_nat n - 1025) / 512)%Z).
      { rewrite Nat2Z.inj_div. f_equal. lia. }
      assert (H' : ((Z.of_nat n - 1024 + 511) / 512 = (Z.of_nat n - 1025) / 512 + 1)%Z)
        by (Z.div_mod_to_equations; lia).
      lia. }
  split; [ exact Hlen | ].
  assert (Hfit : forall j, (j < List.length (frames audio_data 1024 512))%nat ->
                           (j * 512 + 1024 < n)%nat).
  { intros j Hj. rewrite frames_length in Hj. fold n in Hj.
    assert (H : (Z.of_nat j < (Z.of_nat n - 1024 + 511) / 512)%Z) by lia.
    assert (H' : (Z.of_nat j * 512 < Z.of_nat n - 1024)%Z)
      by (Z.div_mod_to_equations; lia).
    lia. }
  split.
  - intros j Hj. rewrite (frames_nth _ _ Hj).
    rewrite ExtractorFacts.slice_length by (specialize (Hfit j Hj); fold n; lia). lia.
  - intros j Hj.
    rewrite (frames_nth audio_data j) by lia.
    rewrite (frames_nth audio_data (S j)) by exact Hj.
    unfold Np.slice.
    replace (j * 512 + 1024 - j * 512)%nat with 1024%nat by lia.
    replace (S j * 512 + 1024 - S j * 512)%nat with 1024%nat by lia.
    rewrite skipn_firstn_comm, skipn_skipn, firstn_firstn.
    replace (512 + j * 512)%nat with (S j * 512)%nat by lia.
    reflexivity.
Qed.

Section Fallbacks.

Context {F : Type} {A : Np.Arith F}.
Variable lib : Np.SciLib F.

Lemma no_frames (audio_data : list F) :
  (List.length audio_data <= 1024)%nat -> frames audio_data 1024 512 = [].
Proof.
  intros H. apply length_zero_iff_nil.
  rewrite (proj1 (frames_shape audio_data)).
  destruct (Nat.leb_spec (List.length audio_data) 1024); [ reflexivity | lia ].
Qed.

(** X7. What the framed features return on a short signal. With at most
    1024 samples there is no frame: [zcr_std] and [energy_entropy] are 0.0.
    With at most 1536 samples there are fewer than two frames: [shimmer] is
    its fallback 0.05. A one-sample signal has a one-point autocorrelation:
    [harmonic_ratio] is its fallback 0.5. *)
Theorem short_signal_fallbacks (audio_data : list F) :
  ((List.length audio_data <= 1024)%nat ->
     _calculate_zcr_std audio_data = Np.of_Q 0.0 /\
     _calculate_energy_entropy lib audio_data = Np.of_Q 0.0)
  /\ ((List.length audio_data <= 1536)%nat ->
        _calculate_shimmer audio_data = Np.of_Q 0.05)
  /\ ((List.length audio_data = 1)%nat ->
        _calculate_harmonic_ratio lib audio_data = inr (Np.of_Q 0.5)).
Proof.
  split; [ | split ].
  - intros H. unfold _calculate_zcr_std, _calculate_energy_entropy.
    rewrite (no_frames _ H). split; reflexivity.
  - intros H. unfold _calculate_shimmer. rewrite length_map.
    rewrite (proj1 (frames_shape audio_data)).
    destruct (Nat.leb_spec (List.length audio_data) 1024) as [Hle | Hgt];
      [ reflexivity | ].
    assert (Hd : ((List.length audio_data - 1025) / 512 = 0)%nat)
      by (apply Nat.div_small; lia).
    rewrite Hd. reflexivity.
  - intros H. destruct audio_data as [ | x [ | y rest]]; try discriminate H.
    reflexivity.
Qed.

End Fallbacks.

#[local] Existing Instance Np.float_arith.

(** [min(x, 1.0)] never exceeds 1.0, whatever the float. *)
Lemma py_min_one (x : float) :
  PrimFloat.ltb 1 (Np.py_min (A := Np.float_arith) x (Np.of_Q 1.0)) = false.
Proof.
  unfold Np.py_min. change (Np.of_Q 1.0) with 1%float.
  change (Np.ltb 1%float x) with (PrimFloat.ltb 1 x).
  destruct (PrimFloat.ltb 1 x) eqn:E; [ reflexivity | exact E ].
Qed.

(** X8. The three clipped features never exceed 1.0 on a binary64 signal,
    whatever the library returns: [shimmer] always, [harmonic_ratio] and
    [jitter] whenever they return. *)
Theorem clipped_features_at_most_one (lib : Np.SciLib float) (audio_data : list float) :
  PrimFloat.ltb 1 (_calculate_shimmer (A := Np.float_arith) audio_data) = false
  /\ (forall r, _calculate_harmonic_ratio (A := Np.float_arith) lib audio_data = inr r ->
                PrimFloat.ltb 1 r = false)
  /\ (forall r sample_rate,
        _calculate_jitter (A := Np.float_arith) lib audio_data sample_rate = inr r ->
        PrimFloat.ltb 1 r = false).
Proof.
  split; [ | split ].
  - unfold _calculate_shimmer.
    destruct (1 <? List.length _)%nat; [ apply py_min_one | reflexivity ].
  - intros r. unfold _calculate_harmonic_ratio.
    destruct (autocorrelate audio_data) as [e | autocorr]; cbn [Py.bind];
      [ discriminate | ].
    destruct (List.length _ <? 2)%nat; [ intros [= <-]; reflexivity | ].
    destruct (0 <? List.length _)%nat; [ | intros [= <-]; reflexivity ].
    destruct (np_max _) as [e | m]; cbn [Py.bind]; [ discriminate | ].
    intros [= <-]. apply py_min_one.
  - intros r sample_rate. unfold _calculate_jitter.
    destruct (autocorrelate audio_data) as [e | autocorr]; cbn [Py.bind];
      [ discriminate | ].
    destruct (np_max _) as [e | m]; cbn [Py.bind]; [ discriminate | ].
    destruct (1 <? List.length _)%nat; intros [= <-];
      [ apply py_min_one | reflexivity ].
Qed.

(** X9. On an empty signal the extractor raises the [ValueError] of the
    Fourier transform, its first step, and [detect] raises with it. *)
Theorem empty_signal_raises
    (lib : Np.SciLib float) (sample_rate : Z) (language : string) (include_features : bool) :
  exists e,
    _extract_features (A := Np.float_arith) lib [] sample_rate language = inl e /\
    detect lib [] sample_rate language include_features = inl e /\
    Py.exn_type e = "ValueError".
Proof. eexists. split; [ reflexivity | split; reflexivity ]. Qed.



End ExtractorMore.

(** * Further properties of the audio processor *)

Module AudioProcessorMore.

Import Np AudioProcessor.

#[local] Open Scope string_scope.

Section Processor.

Context {F : Type} {A : Arith F}.

Variable from_file : list Byte.byte -> Py.result AudioSegment.
Variable format_2f : Q -> string.

Lemma preemphasis_returns (audio_data output : list F) (coef : F) :
  _apply_preemphasis audio_data coef = inr output ->
  audio_data <> [] /\ List.length output = List.length audio_data.
Proof.
  destruct audio_data as [ | first rest]; [ discriminate | ].
  cbn [_apply_preemphasis]. unfold Py.ret.
  set (tail := zip_with _ rest (removelast (first :: rest))).
  assert (Ht : List.length tail = List.length rest).
  { unfold tail.
    rewrite AudioProcessorFacts.zip_with_length, AudioProcessorFacts.removelast_length.
    cbn [List.length]. lia. }
  clearbody tail. intros [= <-]. split; [ discriminate | ].
  cbn [List.length]. lia.
Qed.

(** The segment after the two conversions, when both are skipped or succeed. *)
Definition converted
    (set_channels set_frame_rate : AudioSegment -> Z -> Py.result AudioSegment)
    (audio : AudioSegment) : Py.result AudioSegment :=
  audio <- (if (channels audio >? 1)%Z then set_channels audio 1%Z else Py.ret audio) ;;
  (if negb (frame_rate audio =? target_sample_rate)%Z
   then set_frame_rate audio target_sample_rate else Py.ret audio).

(** X11. A clip [process_audio] returns is never empty, and it has one
    sample per sample of the decoded segment as it stands after the mono
    and rate conversions; its duration is the one measured before them. *)
Theorem returned_clip_shape
    (set_channels set_frame_rate : AudioSegment -> Z -> Py.result AudioSegment)
    (audio_bytes : list Byte.byte) (audio_data : list F) (rate : Z) (d : Q) :
  process_audio from_file set_channels set_frame_rate format_2f audio_bytes
    = inr (audio_data, rate, d) ->
  exists audio audio',
    from_file audio_bytes = inr audio /\
    converted set_channels set_frame_rate audio = inr audio' /\
    List.length audio_data = List.length (array_of_samples audio') /\
    audio_data <> [] /\
    d = (len_ms audio # 1000)%Q.
Proof.
  unfold process_audio, Py.try_except, converted.
  destruct (from_file audio_bytes) as [e | audio]; cbn [Py.bind]; [ discriminate | ].
  destruct (Qltb (len_ms audio # 1000) min_duration); [ discriminate | ].
  destruct (Qltb max_duration (len_ms audio # 1000)); [ discriminate | ].
  destruct (if (channels audio >? 1)%Z then set_channels audio 1%Z else Py.ret audio)
    as [e | a1] eqn:E1; cbn [Py.bind]; [ discriminate | ].
  destruct (if negb (frame_rate a1 =? target_sample_rate)%Z
            then set_frame_rate a1 target_sample_rate else Py.ret a1)
    as [e | a2] eqn:E2; cbn [Py.bind]; [ discriminate | ].
  cbv zeta.
  match goal with
  | |- match Py.bind (_apply_preemphasis ?l ?c) _ with _ => _ end = _ -> _ =>
      destruct (_apply_preemphasis l c) as [e | out] eqn:Ep
  end; cbn [Py.bind Py.ret]; [ discriminate | ].
  intros [= <- <- <-].
  apply preemphasis_returns in Ep. destruct Ep as [Hne Hlen].
  rewrite !length_map in Hlen.
  exists audio, a2. split; [ reflexivity | ].
  split; [ rewrite E1; cbn [Py.bind]; exact E2 | ].
  split; [ exact Hlen | ]. split; [ | reflexivity ].
  intros ->. cbn [List.length] in Hlen.
  destruct (array_of_samples a2); [ apply Hne; reflexivity | discriminate Hlen ].
Qed.

(** X12. A clip that is already mono at 16 kHz is never handed to pydub's
    [set_channels] or [set_frame_rate]: the result is the same whatever
    those two would do. *)
Theorem conversions_only_when_needed
    (set_channels set_frame_rate set_channels' set_frame_rate' :
       AudioSegment -> Z -> Py.result AudioSegment)
    (audio_bytes : list Byte.byte) (audio : AudioSegment) :
  from_file audio_bytes = inr audio ->
  (channels audio <= 1)%Z ->
  frame_rate audio = 16000%Z ->
  process_audio from_file set_channels set_frame_rate format_2f audio_bytes =
  process_audio from_file set_channels' set_frame_rate' format_2f audio_bytes.
Proof.
  intros Hf Hc Hr. unfold process_audio. rewrite Hf. cbn [Py.bind].
  destruct (Qltb (len_ms audio # 1000) min_duration); [ reflexivity | ].
  destruct (Qltb max_duration (len_ms audio # 1000)); [ reflexivity | ].
  assert (Hc' : (channels audio >? 1)%Z = false) by lia.
  rewrite Hc'. cbn [Py.bind Py.ret].
  rewrite Hr. cbn [Z.eqb target_sample_rate Pos.eqb negb]. reflexivity.
Qed.

End Processor.

(** A mono clip of one second at 16 kHz and two stand-ins for pydub that fail. *)
Definition mono_second : AudioSegment :=
  {| len_ms := 1000; channels := 1; frame_rate := 16000; array_of_samples := [100; -100]%Z |}.

Definition refuse (a : AudioSegment) (z : Z) : Py.result AudioSegment :=
  inl (Py.Exn "RuntimeError" "not called").

Lemma returned_clip_shape_witness :
  exists audio audio',
    (inr mono_second : Py.result AudioSegment) = inr audio /\
    converted refuse refuse audio = inr audio' /\
    List.length [0.0030517578125 - 0; -0.0030517578125 - 0.97 * 0.0030517578125]%float
      = List.length (array_of_samples audio') /\
    [0.0030517578125 - 0; -0.0030517578125 - 0.97 * 0.0030517578125]%float <> [] /\
    (1000 # 1000)%Q = (len_ms audio # 1000)%Q.
Proof.
  apply (returned_clip_shape (A := float_arith)
           (fun _ => inr mono_second) (fun _ => "1.00") refuse refuse [] _ 16000%Z (1000 # 1000)).
  vm_compute. reflexivity.
Defined.

Lemma conversions_only_when_needed_witness :
  process_audio (A := float_arith) (fun _ => inr mono_second) refuse refuse (fun _ => "1.00") [] =
  process_audio (A := float_arith) (fun _ => inr mono_second)
    (fun a _ => inr a) (fun a _ => inr a) (fun _ => "1.00") [].
Proof.
  apply (conversions_only_when_needed (A := float_arith)
           (fun _ => inr mono_second) (fun _ => "1.00")
           refuse refuse (fun a _ => inr a) (fun a _ => inr a) [] mono_second).
  - reflexivity.
  - cbn. lia.
  - reflexivity.
Defined.

End AudioProcessorMore.

(** * Further properties in exact arithmetic *)

Module ExactMore.

Import Reals Qreals Lra.
Import VoiceDetector Exact.

#[local] Open Scope R_scope.

(** The sign of a real number, and the adjacent differences of a list. *)
Definition rsign (v : R) : R :=
  if Rlt_dec v 0 then -1 else if Rlt_dec 0 v then 1 else 0.

Fixpoint rdiff (l : list R) : list R :=
  match l with
  | x :: ((y :: _) as rest) => (y - x) :: rdiff rest
  | _ => []
  end.

Lemma sign_finite (v : R) : Np.sign (Some v) = Some (rsign v).
Proof.
  unfold Np.sign, rsign, Np.zero, Np.one.
  cbn [Np.ltb Np.eqb Np.of_Z arith xltb xeqb].
  destruct (Rlt_dec v 0) as [Hn | Hn]; [ reflexivity | ].
  destruct (Rlt_dec 0 v) as [Hp | Hp]; [ reflexivity | ].
  destruct (Req_dec_T v 0) as [_ | Hz]; [ reflexivity | ].
  exfalso. apply Hz. lra.
Qed.

Lemma rsign_bounds (v : R) : -1 <= rsign v <= 1.
Proof.
  unfold rsign. destruct (Rlt_dec v 0); [ lra | ]. destruct (Rlt_dec 0 v); lra.
Qed.

Lemma diff_finite (l : list R) : Np.diff (map Some l) = map Some (rdiff l).
Proof.
  induction l as [ | x [ | y rest] IH]; try reflexivity.
  cbn [map Np.diff rdiff] in *. rewrite IH. reflexivity.
Qed.

Lemma abs_finite (l : list R) : map Np.abs (map Some l) = map Some (map Rabs l).
Proof. rewrite !map_map. reflexivity. Qed.

(** The crossings counted twice: at most two per adjacent pair of signs. *)
Lemma crossings_bound (l : list R) :
  Forall (fun s => -1 <= s <= 1) l ->
  0 <= rsum (map Rabs (rdiff l)) <= 2 * (INR (List.length l) - 1) \/ l = [].
Proof.
  intros Hl. induction Hl as [ | x l Hx Hl IH]; [ right; reflexivity | left ].
  destruct l as [ | y rest].
  - cbn. lra.
  - destruct IH as [IH | IH]; [ | discriminate IH ].
    inversion Hl as [ | ? ? Hy _ ]; subst.
    change (rdiff (x :: y :: rest)) with ((y - x) :: rdiff (y :: rest)).
    cbn [map rsum fold_right]. change (fold_right Rplus 0) with rsum.
    change (List.length (x :: y :: rest)) with (S (List.length (y :: rest))).
    rewrite S_INR.
    assert (Ha : 0 <= Rabs (y - x) <= 2).
    { split; [ apply Rabs_pos | ]. unfold Rabs. destruct (Rcase_abs (y - x)); lra. }
    lra.
Qed.

(** X13. In exact arithmetic the zero-crossing rate of a non-empty finite
    signal is a number in [0, 1): half the summed sign changes over the
    sample count, and there is one sign change fewer than samples. *)
Theorem zero_crossing_rate_in_unit_interval (audio_data : list R) :
  audio_data <> [] ->
  exists zcr,
    _calculate_zero_crossing_rate (map Some audio_data) = Some zcr /\ 0 <= zcr < 1.
Proof.
  intros Hne. unfold _calculate_zero_crossing_rate.
  rewrite (map_map Some Np.sign).
  rewrite (map_ext _ (fun v => Some (rsign v)) sign_finite).
  rewrite <- (map_map rsign Some).
  rewrite diff_finite, abs_finite, FlatnessFacts.sum_finite.
  unfold Np.len. rewrite length_map.
  set (n := List.length audio_data).
  set (s := rsum (map Rabs (rdiff (map rsign audio_data)))).
  assert (Hn : 1 <= INR n).
  { unfold n. destruct audio_data; [ congruence | ].
    rewrite length_cons, S_INR. pose proof (pos_INR (List.length audio_data)). lra. }
  assert (Hs : 0 <= s <= 2 * (INR n - 1)).
  { destruct (crossings_bound (map rsign audio_data)) as [H | H].
    - apply Forall_forall. intros v Hv. apply in_map_iff in Hv.
      destruct Hv as (w & <- & _). apply rsign_bounds.
    - rewrite length_map in H. exact H.
    - destruct audio_data; [ congruence | discriminate H ]. }
  change (Np.of_Z 2) with (Some 2).
  change (Np.of_Z (Z.of_nat n)) with (Some (IZR (Z.of_nat n))).
  rewrite <- INR_IZR_INZ.
  cbn [Np.div arith xdiv].
  destruct (Req_dec_T 2 0) as [E | _]; [ lra | ].
  cbn [xdiv].
  destruct (Req_dec_T (INR n) 0) as [E | _]; [ lra | ].
  eexists. split; [ reflexivity | ].
  split.
  - apply Rle_mult_inv_pos; lra.
  - apply (Rmult_lt_reg_r (INR n)); [ lra | ].
    replace (s / 2 / INR n * INR n) with (s / 2) by (field; lra).
    lra.
Qed.

(** The rate of the signal [1, -1, 1]. *)
Lemma zero_crossing_rate_witness :
  exists zcr,
    _calculate_zero_crossing_rate (map Some [1; -1; 1]) = Some zcr /\ 0 <= zcr < 1.
Proof.
  apply (zero_crossing_rate_in_unit_interval [1; -1; 1]).
  discriminate.
Defined.





Lemma rsum_squares_nonneg (l : list R) : 0 <= rsum (map (fun v => v * v) l).
Proof.
  induction l as [ | v l IH]; cbn [map rsum fold_right]; [ lra | ].
  change (fold_right Rplus 0) with rsum. nra.
Qed.

Lemma rsum_zeros (l : list R) : (forall v, In v l -> v = 0) -> rsum l = 0.
Proof.
  induction l as [ | v l IH]; intros H; cbn [rsum fold_right]; [ reflexivity | ].
  change (fold_right Rplus 0) with rsum.
  rewrite (H v) by (left; reflexivity).
  rewrite IH by (intros w Hw; apply H; right; exact Hw). lra.
Qed.

Lemma no_sample_clipped (l : list R) :
  (forall v, In v l -> Rabs v <= Q2R 0.99) ->
  filter (fun x => Np.gtb (Np.abs x) (Np.of_Q 0.99)) (map Some l) = [].
Proof.
  induction l as [ | v l IH]; intros H; [ reflexivity | ].
  cbn [map filter]. rewrite IH by (intros w Hw; apply H; right; exact Hw).
  unfold Np.gtb. cbn [Np.abs Np.of_Q Np.ltb arith option_map xltb].
  destruct (Rlt_dec (Q2R 0.99) (Rabs v)) as [Hc | _]; [ | reflexivity ].
  specialize (H v (or_introl eq_refl)). lra.
Qed.

Lemma Q2R_pos (q : Q) : (0 < q)%Q -> 0 < Q2R q.
Proof. intros H. rewrite <- RMicromega.Q2R_0. apply Qlt_Rlt. exact H. Qed.

(** X15. The quality check in exact arithmetic, on a non-empty finite
    signal: the clipping ratio is a number in [0, 1] and the signal power is
    non-negative; a signal with no sample above 0.99 in magnitude is never
    flagged as clipped; an all-zero signal is flagged silent with zero DC
    offset. *)
Theorem quality_of_a_finite_signal (audio_data : list R) (sample_rate : Z) :
  audio_data <> [] ->
  let quality := AudioProcessor.validate_audio_quality (map Some audio_data) sample_rate in
  (exists ratio power,
     AudioProcessor.clipping_ratio quality = Some ratio /\ 0 <= ratio <= 1 /\
     AudioProcessor.signal_power quality = Some power /\ 0 <= power)
  /\ ((forall v, In v audio_data -> Rabs v <= Q2R 0.99) ->
        AudioProcessor.is_clipped quality = false)
  /\ ((forall v, In v audio_data -> v = 0) ->
        AudioProcessor.is_silent quality = true /\
        AudioProcessor.dc_offset quality = Some 0).
Proof.
  intros Hne quality. unfold quality, AudioProcessor.validate_audio_quality.
  cbn [AudioProcessor.clipping_ratio AudioProcessor.signal_power
       AudioProcessor.is_clipped AudioProcessor.is_silent AudioProcessor.dc_offset].
  set (n := List.length audio_data).
  assert (Hn : 1 <= INR n).
  { unfold n. destruct audio_data; [ congruence | ].
    rewrite length_cons, S_INR. pose proof (pos_INR (List.length audio_data)). lra. }
  assert (Hsq : Np.square (map Some audio_data) = map Some (map (fun v => v * v) audio_data)).
  { unfold Np.square. rewrite !map_map. reflexivity. }
  assert (Hsqne : map (fun v => v * v) audio_data <> [])
    by (destruct audio_data; [ congruence | discriminate ]).
  rewrite Hsq, (FlatnessFacts.mean_finite _ Hsqne), (FlatnessFacts.mean_finite _ Hne).
  rewrite !length_map. fold n.
  split; [ | split ].
  - set (k := List.length (filter _ (map Some audio_data))).
    assert (Hk : (k <= n)%nat).
    { unfold k, n. rewrite <- (length_map Some audio_data). apply filter_length_le. }
    cbn [Np.of_Z Np.div arith xdiv]. rewrite <- !INR_IZR_INZ.
    destruct (Req_dec_T (INR n) 0) as [E | _]; [ lra | ].
    eexists. eexists. split; [ reflexivity | ].
    assert (Hk' : 0 <= INR k <= INR n) by (split; [ apply pos_INR | apply le_INR, Hk ]).
    split; [ | split; [ reflexivity | ] ].
    + split.
      * apply Rle_mult_inv_pos; lra.
      * apply (Rmult_le_reg_r (INR n)); [ lra | ].
        replace (INR k / INR n * INR n) with (INR k) by (field; lra). lra.
    + apply Rle_mult_inv_pos; [ apply rsum_squares_nonneg | lra ].
  - intros Hquiet. rewrite (no_sample_clipped _ Hquiet).
    cbn [List.length Z.of_nat Np.of_Z Np.div arith xdiv]. rewrite <- INR_IZR_INZ.
    destruct (Req_dec_T (INR n) 0) as [E | _]; [ lra | ].
    unfold Np.gtb. cbn [Np.of_Q Np.ltb arith xltb].
    destruct (Rlt_dec (Q2R 0.01) (0 / INR n)) as [Hc | _]; [ | reflexivity ].
    assert (0 < Q2R 0.01) by (apply Q2R_pos; reflexivity).
    unfold Rdiv in Hc. rewrite Rmult_0_l in Hc. lra.
  - intros Hzero.
    assert (Hz2 : rsum (map (fun v => v * v) audio_data) = 0).
    { apply rsum_zeros. intros w Hw. apply in_map_iff in Hw.
      destruct Hw as (v & <- & Hv). rewrite (Hzero v Hv). lra. }
    rewrite Hz2, (rsum_zeros _ Hzero).
    cbn [Np.of_Q Np.ltb arith xltb].
    assert (0 < Q2R 0.001) by (apply Q2R_pos; reflexivity).
    split.
    + destruct (Rlt_dec (0 / INR n) (Q2R 0.001)) as [_ | Hc]; [ reflexivity | ].
      exfalso. apply Hc. unfold Rdiv. rewrite Rmult_0_l. assumption.
    + f_equal. unfold Rdiv. apply Rmult_0_l.
Qed.

(** The check on the signal [0.5, -0.25]. *)
Lemma quality_witness :
  let quality := AudioProcessor.validate_audio_quality (map Some [0.5; -0.25]) 16000 in
  (exists ratio power,
     AudioProcessor.clipping_ratio quality = Some ratio /\ 0 <= ratio <= 1 /\
     AudioProcessor.signal_power quality = Some power /\ 0 <= power)
  /\ ((forall v, In v [0.5; -0.25] -> Rabs v <= Q2R 0.99) ->
        AudioProcessor.is_clipped quality = false)
  /\ ((forall v, In v [0.5; -0.25] -> v = 0) ->
        AudioProcessor.is_silent quality = true /\
        AudioProcessor.dc_offset quality = Some 0).
Proof.
  apply (quality_of_a_finite_signal [0.5; -0.25] 16000).
  discriminate.
Defined.

Lemma firstn_seq_prefix (m n a : nat) : (m <= n)%nat -> firstn m (seq a n) = seq a m.
Proof.
  revert n a. induction m as [ | m IH]; intros n a H; [ reflexivity | ].
  destruct n as [ | n]; [ lia | ].
  cbn [seq firstn]. rewrite IH by lia. reflexivity.
Qed.

(** The positive-frequency half of [fftfreq]: bin [k] is [k] times the
    spacing. *)
Lemma fftfreq_half (n : nat) (d spacing : R) :
  Np.div (Np.of_Q 1) (Np.mul (Np.of_Z (Z.of_nat n)) (Some d)) = Some spacing ->
  firstn (n / 2) (Np.fftfreq n (Some d)) =
  map Some (map (fun k => INR k * spacing) (seq 0 (n / 2))).
Proof.
  intros Hval. unfold Np.fftfreq. rewrite Hval.
  assert (Hhalf : (n / 2 <= n)%nat) by (apply Nat.Div0.div_le_upper_bound; lia).
  rewrite firstn_map, (firstn_seq_prefix _ _ _ Hhalf), map_map.
  apply map_ext_in. intros k Hk. apply in_seq in Hk.
  assert (Hlt : (k <? (n - 1) / 2 + 1)%nat = true).
  { apply Nat.ltb_lt.
    assert (H1 : (Z.of_nat (n / 2) = Z.of_nat n / 2)%Z) by (rewrite Nat2Z.inj_div; reflexivity).
    assert (H2 : (Z.of_nat ((n - 1) / 2) = Z.of_nat (n - 1) / 2)%Z)
      by (rewrite Nat2Z.inj_div; reflexivity).
    Z.div_mod_to_equations. lia. }
  rewrite Hlt. cbn [Np.of_Z Np.mul arith lift2]. rewrite <- INR_IZR_INZ. reflexivity.
Qed.

Lemma zip_mul_finite (fs ss : list R) :
  Np.zip_with Np.mul (map Some fs) (map Some ss) =
  map Some (map (fun p => fst p * snd p) (combine fs ss)).
Proof.
  unfold Np.zip_with. revert ss.
  induction fs as [ | f fs IH]; intros [ | s0 ss]; try reflexivity.
  cbn [map combine fst snd]. rewrite IH. reflexivity.
Qed.

Lemma rsum_nonneg (l : list R) : Forall (fun s => 0 <= s) l -> 0 <= rsum l.
Proof.
  intros H. induction H as [ | s l Hs Hl IH]; cbn [rsum fold_right]; [ lra | ].
  change (fold_right Rplus 0) with rsum. lra.
Qed.

(** A weighted sum of frequencies at most [bound], with non-negative weights. *)
Lemma weighted_sum_bound (bound : R) (fs ss : list R) :
  0 <= bound ->
  Forall (fun f => 0 <= f <= bound) fs -> Forall (fun s => 0 <= s) ss ->
  0 <= rsum (map (fun p => fst p * snd p) (combine fs ss)) <= bound * rsum ss.
Proof.
  intros Hb Hf. revert ss. induction Hf as [ | f fs Hf0 Hf IH]; intros ss Hs.
  - cbn. pose proof (rsum_nonneg ss Hs). nra.
  - destruct Hs as [ | s0 ss Hs0 Hs].
    + cbn. lra.
    + cbn [combine map fst snd rsum fold_right]. change (fold_right Rplus 0) with rsum.
      specialize (IH ss Hs). nra.
Qed.

(** X16. In exact arithmetic the spectral centroid of a non-empty finite
    signal at a positive sample rate is a frequency in [0, sample_rate / 2):
    a mean of the positive-frequency bins weighted by their magnitudes. *)
Theorem spectral_centroid_below_nyquist
    (lib : Np.SciLib (option R)) (audio_data : list R) (sample_rate : Z) :
  audio_data <> [] -> (0 < sample_rate)%Z ->
  exists centroid,
    _calculate_spectral_centroid (transforms lib) (map Some audio_data) sample_rate
      = inr (Some centroid) /\
    0 <= centroid < IZR sample_rate / 2.
Proof.
  intros Hne Hrate.
  assert (Hr : 0 < IZR sample_rate) by (apply IZR_lt; exact Hrate).
  unfold _calculate_spectral_centroid.
  rewrite ExtractorFacts.abs_fft_nonempty
    by (destruct audio_data; [ congruence | discriminate ]).
  cbn [Py.bind].
  assert (Hz : (sample_rate =? 0)%Z = false) by lia. rewrite Hz.
  change (Np.fft_abs (transforms lib) (map Some audio_data)) with (dft_abs (map Some audio_data)).
  rewrite FlatnessFacts.dft_abs_finite, !length_map, FlatnessFacts.dft_abs_R_length.
  set (n := List.length audio_data).
  assert (Hn : 1 <= INR n).
  { unfold n. destruct audio_data; [ congruence | ].
    rewrite length_cons, S_INR. pose proof (pos_INR (List.length audio_data)). lra. }
  assert (Hone : Q2R 1 = 1) by (unfold Q2R; cbn; lra).
  (* the frequency spacing *)
  assert (Hd : Np.div (Np.of_Q 1) (Np.of_Z sample_rate) = Some (1 / IZR sample_rate)).
  { cbn [Np.div Np.of_Q Np.of_Z arith xdiv]. rewrite Hone.
    destruct (Req_dec_T (IZR sample_rate) 0); [ lra | reflexivity ]. }
  rewrite Hd.
  assert (Hsp : Np.div (Np.of_Q 1) (Np.mul (Np.of_Z (Z.of_nat n)) (Some (1 / IZR sample_rate)))
                = Some (IZR sample_rate / INR n)).
  { cbn [Np.div Np.mul Np.of_Q Np.of_Z arith xdiv lift2]. rewrite Hone, <- INR_IZR_INZ.
    assert (Hpos : 0 < INR n * (1 / IZR sample_rate)).
    { apply Rmult_lt_0_compat; [ lra | ]. apply Rdiv_lt_0_compat; lra. }
    destruct (Req_dec_T (INR n * (1 / IZR sample_rate)) 0); [ lra | ].
    f_equal. field. split; lra. }
  assert (Hfl : List.length (Np.fftfreq n (Some (1 / IZR sample_rate))) = n)
    by (unfold Np.fftfreq; rewrite length_map, length_seq; reflexivity).
  rewrite Hfl, (fftfreq_half n _ _ Hsp), firstn_map.
  set (fs := map (fun k => INR k * (IZR sample_rate / INR n)) (seq 0 (n / 2))).
  set (ss := firstn (n / 2) (dft_abs_R audio_data)).
  rewrite zip_mul_finite, !FlatnessFacts.sum_finite.
  destruct FlatnessFacts.eps_value as [-> He].
  assert (Hss : Forall (fun s => 0 <= s) ss).
  { unfold ss. apply Forall_forall. intros s0 Hs0.
    pose proof (FlatnessFacts.dft_abs_R_nonneg audio_data) as Hall.
    rewrite Forall_forall in Hall. apply Hall.
    rewrite <- (firstn_skipn (n / 2) (dft_abs_R audio_data)).
    apply in_or_app. left. exact Hs0. }
  assert (Hfs : Forall (fun f => 0 <= f <= IZR sample_rate / 2) fs).
  { unfold fs. apply Forall_forall. intros f Hf. apply in_map_iff in Hf.
    destruct Hf as (k & <- & Hk). apply in_seq in Hk.
    assert (Hk2 : 2 * INR k <= INR n).
    { assert (H : (2 * k <= n)%nat).
      { assert (H1 : (2 * (n / 2) <= n)%nat) by (apply Nat.Div0.mul_div_le). lia. }
      apply le_INR in H. rewrite mult_INR in H. cbn in H. lra. }
    pose proof (pos_INR k) as Hk0.
    split.
    - apply Rmult_le_pos; [ exact Hk0 | ]. apply Rle_mult_inv_pos; lra.
    - apply (Rmult_le_reg_r (INR n)); [ lra | ].
      replace (INR k * (IZR sample_rate / INR n) * INR n) with (INR k * IZR sample_rate)
        by (field; lra).
      nra. }
  pose proof (weighted_sum_bound (IZR sample_rate / 2) fs ss ltac:(lra) Hfs Hss) as Hw.
  pose proof (rsum_nonneg ss Hss) as Hs0.
  set (num := rsum (map (fun p => fst p * snd p) (combine fs ss))) in *.
  set (tot := rsum ss) in *.
  cbn [Np.add Np.div arith lift2 xdiv].
  destruct (Req_dec_T (tot + Q2R 1e-10) 0); [ lra | ].
  eexists. split; [ reflexivity | ].
  split.
  - apply Rle_mult_inv_pos; lra.
  - apply (Rmult_lt_reg_r (tot + Q2R 1e-10)); [ lra | ].
    replace (num / (tot + Q2R 1e-10) * (tot + Q2R 1e-10)) with num by (field; lra).
    nra.
Qed.

(** The centroid of a two-sample signal at 16 kHz. *)
Lemma spectral_centroid_witness :
  exists centroid,
    _calculate_spectral_centroid (transforms blank) (map Some [1; 2]) 16000
      = inr (Some centroid) /\
    0 <= centroid < IZR 16000 / 2.
Proof.
  apply (spectral_centroid_below_nyquist blank [1; 2] 16000).
  - discriminate.
  - reflexivity.
Defined.

Lemma var_finite (l : list R) :
  l <> [] ->
  exists v, Np.var (map Some l) = Some v /\ 0 <= v.
Proof.
  intros Hne. unfold Np.var. rewrite (FlatnessFacts.mean_finite _ Hne).
  set (mu := rsum l / INR (List.length l)).
  rewrite map_map.
  assert (Hsq : map (fun x => Np.mul (Np.sub (Some x) (Some mu)) (Np.sub (Some x) (Some mu))) l
                = map Some (map (fun x => (x - mu) * (x - mu)) l))
    by (rewrite map_map; reflexivity).
  rewrite Hsq.
  assert (Hne' : map (fun x => (x - mu) * (x - mu)) l <> [])
    by (destruct l; [ congruence | discriminate ]).
  rewrite (FlatnessFacts.mean_finite _ Hne'), length_map.
  eexists. split; [ reflexivity | ].
  assert (Hn : 0 < INR (List.length l)).
  { destruct l; [ congruence | ]. apply lt_0_INR. cbn. lia. }
  apply Rle_mult_inv_pos; [ | exact Hn ].
  rewrite <- (map_map (fun x => x - mu) (fun d => d * d)).
  apply rsum_squares_nonneg.
Qed.

(** X17. In exact arithmetic the MFCC variance of a finite signal of at
    least two samples is a non-negative number: the variance of the
    logarithms of the shifted magnitudes, all of which are defined. *)
Theorem mfcc_variance_nonnegative
    (lib : Np.SciLib (option R)) (audio_data : list R) (sample_rate : Z) :
  (2 <= List.length audio_data)%nat ->
  exists variance,
    _calculate_mfcc_variance (transforms lib) (map Some audio_data) sample_rate
      = inr (Some variance) /\
    0 <= variance.
Proof.
  intros Hlen. unfold _calculate_mfcc_variance.
  rewrite ExtractorFacts.abs_fft_nonempty
    by (destruct audio_data; [ cbn in Hlen; lia | discriminate ]).
  cbn [Py.bind Py.ret].
  change (Np.fft_abs (transforms lib) (map Some audio_data)) with (dft_abs (map Some audio_data)).
  rewrite FlatnessFacts.dft_abs_finite, length_map, FlatnessFacts.dft_abs_R_length, firstn_map.
  destruct FlatnessFacts.eps_value as [-> He].
  set (half := firstn (List.length audio_data / 2) (dft_abs_R audio_data)).
  assert (Hpos : Forall (fun s => 0 <= s) half).
  { unfold half. apply Forall_forall. intros s0 Hs0.
    pose proof (FlatnessFacts.dft_abs_R_nonneg audio_data) as Hall.
    rewrite Forall_forall in Hall. apply Hall.
    rewrite <- (firstn_skipn (List.length audio_data / 2) (dft_abs_R audio_data)).
    apply in_or_app. left. exact Hs0. }
  assert (Hhalf : half <> []).
  { intros Hnil. apply (f_equal (@List.length R)) in Hnil.
    unfold half in Hnil. rewrite length_firstn, FlatnessFacts.dft_abs_R_length in Hnil.
    cbn [List.length] in Hnil.
    assert (1 <= List.length audio_data / 2)%nat by (apply Nat.div_le_lower_bound; lia).
    lia. }
  change (Np.log (transforms lib)) with xlog.
  rewrite (FlatnessFacts.log_shifted _ half He Hpos).
  destruct (var_finite (map (fun s => ln (s + Q2R 1e-10)) half)) as (v & Hv & Hv0).
  { destruct half; [ congruence | discriminate ]. }
  exists v. split; [ | exact Hv0 ]. unfold Py.ret. f_equal. exact Hv.
Qed.

(** The variance for the two-sample signal [1, 2]. *)
Lemma mfcc_variance_witness :
  exists variance,
    _calculate_mfcc_variance (transforms blank) (map Some [1; 2]) 16000
      = inr (Some variance) /\
    0 <= variance.
Proof.
  apply (mfcc_variance_nonnegative blank [1; 2] 16000).
  cbn [List.length]. lia.
Defined.

End ExactMore.
